(** * NodeQml engine core: timers, next-tick queue, error bridge, registry

    A shallow embedding of [src/nodeqml/engine.cpp] and
    [src/nodeqml/types/errnoexception.cpp].

    The member functions of [EnginePrivate] become functions over a record
    of its fields.  What the class delegates to Qt ([QObject::startTimer],
    [QObject::killTimer], [QCoreApplication::postEvent], [QHash],
    [QV4::Value::toInt32]) is modelled next to it, following the behaviour
    Qt documents for these calls. *)

From Stdlib Require Import ZArith QArith Lia.
From Stdlib Require Import Floats.SpecFloat.
From stdpp Require Import base gmap strings list fin_maps.

Local Open Scope string_scope.
Local Open Scope list_scope.
Local Open Scope Z_scope.

(** ** The C++ [int] *)

Definition INT_MAX : Z := 2147483647.
Definition INT_MIN : Z := -2147483648.

(** Reduction of an integer to the 32-bit two's complement range. *)
Definition wrap32 (z : Z) : Z := (z + 2 ^ 31) mod 2 ^ 32 - 2 ^ 31.

(** ** Script values ([QV4::Value]) *)

(** Heap objects are known by their address. *)
Definition FunctionObject := positive.
Definition ModuleObject := positive.

Inductive Value :=
| VUndefined
| VNull
| VBoolean (b : bool)
| VInteger (int_32 : Z)
| VDouble (d : spec_float)
| VString (s : string)
| VFunction (f : FunctionObject)
| VObject (o : positive).

Definition isNumber (v : Value) : bool :=
  match v with VInteger _ | VDouble _ => true | _ => false end.

Definition asFunctionObject (v : Value) : option FunctionObject :=
  match v with VFunction f => Some f | _ => None end.

(** The integer part of the finite double [(-1)^s * m * 2^e], rounding
    toward zero. *)
Definition truncate (s : bool) (m : positive) (e : Z) : Z :=
  let a := if 0 <=? e then Z.shiftl (Z.pos m) e else Z.shiftr (Z.pos m) (- e) in
  if s then - a else a.

(** [Value::toInt32]: an integer value is returned as it is; a double in
    the [int] range is cast, which drops the fraction; any other finite
    double goes through ECMAScript's ToInt32 (truncate, then reduce modulo
    2^32); NaN and the infinities give 0.  The callers below test
    [isNumber] first, the conversion of other values is not modelled. *)
Definition doubleToInt32 (d : spec_float) : Z :=
  match d with
  | S754_finite s m e =>
      let t := truncate s m e in
      if (INT_MIN <=? t) && (t <=? INT_MAX) then t else wrap32 t
  | S754_zero _ | S754_infinity _ | S754_nan => 0
  end.

Definition toInt32 (v : Value) : Z :=
  match v with
  | VInteger i => i
  | VDouble d => doubleToInt32 d
  | _ => 0
  end.

(** The rational number a finite double stands for. *)
Definition double_value (s : bool) (m : positive) (e : Z) : Q :=
  let a := if 0 <=? e then inject_Z (Z.pos m * 2 ^ e)
           else Qmake (Z.pos m) (Z.to_pos (2 ^ (- e))) in
  if s then Qopp a else a.

(** Order of a double against zero, as [d <= 0] evaluates in C++. *)
Definition double_le0 (d : spec_float) : bool :=
  match d with
  | S754_zero _ => true
  | S754_infinity s => s
  | S754_nan => false
  | S754_finite s _ _ => s
  end.

(** ** Exceptions and results *)

Inductive Exception :=
| Error (message : string)
| TypeError (message : string)
| ErrnoException (properties : gmap string Value).

(** A [QV4::ReturnedValue] together with the engine's [hasException]. *)
Inductive ReturnedValue :=
| Return (v : Value)
| Throw (e : Exception).

Definition throwError (message : string) : ReturnedValue := Throw (Error message).
Definition throwTypeError (message : string) : ReturnedValue := Throw (TypeError message).

(** ** [QHash] *)

Section QHash.
Context {K : Type} `{Countable K} {V : Type}.

Definition contains (k : K) (h : gmap K V) : bool :=
  match h !! k with Some _ => true | None => false end.

Definition value (k : K) (h : gmap K V) : option V := h !! k.

Definition take (k : K) (h : gmap K V) : option V * gmap K V :=
  (h !! k, delete k h).
End QHash.

(** ** Host side: timers of the [QObject], posted events of the application *)

Inductive TimerType := PreciseTimer | CoarseTimer | VeryCoarseTimer.

Record TimerInfo := mkTimerInfo { interval : Z; timerType : TimerType }.

Inductive QEvent :=
| NextTickEvent (m_callback : FunctionObject)
| OtherEvent (type : Z).

Record QPostEvent := mkPostEvent { event : QEvent; priority : Z }.

(** [QPostEventList::addEvent]: the list is kept in descending priority
    order and a new event goes behind every queued event whose priority is
    at least its own. *)
Fixpoint addEvent (ev : QPostEvent) (l : list QPostEvent) : list QPostEvent :=
  match l with
  | [] => [ev]
  | x :: r => if priority ev <=? priority x then x :: addEvent ev r else ev :: l
  end.

(** ** [EnginePrivate] *)

Record EnginePrivate := mkEnginePrivate {
  m_timeoutCallbacks : gmap Z FunctionObject;
  m_intervalCallbacks : gmap Z FunctionObject;
  m_cachedModules : gmap string ModuleObject;
  (** [m_v4->globalObject] *)
  globalObject : Value;
  (** the timers the [QObject] base has running *)
  runningTimers : gmap Z TimerInfo;
  (** the application's queue of posted events *)
  postEventList : list QPostEvent
}.

Definition with_timeoutCallbacks (h : gmap Z FunctionObject) (d : EnginePrivate) :=
  mkEnginePrivate h (m_intervalCallbacks d) (m_cachedModules d)
                  (globalObject d) (runningTimers d) (postEventList d).

Definition with_intervalCallbacks (h : gmap Z FunctionObject) (d : EnginePrivate) :=
  mkEnginePrivate (m_timeoutCallbacks d) h (m_cachedModules d)
                  (globalObject d) (runningTimers d) (postEventList d).

Definition with_cachedModules (h : gmap string ModuleObject) (d : EnginePrivate) :=
  mkEnginePrivate (m_timeoutCallbacks d) (m_intervalCallbacks d) h
                  (globalObject d) (runningTimers d) (postEventList d).

Definition with_runningTimers (t : gmap Z TimerInfo) (d : EnginePrivate) :=
  mkEnginePrivate (m_timeoutCallbacks d) (m_intervalCallbacks d) (m_cachedModules d)
                  (globalObject d) t (postEventList d).

Definition with_postEventList (q : list QPostEvent) (d : EnginePrivate) :=
  mkEnginePrivate (m_timeoutCallbacks d) (m_intervalCallbacks d) (m_cachedModules d)
                  (globalObject d) (runningTimers d) q.

(** [QObject::startTimer].  [registered] is the identifier the event
    dispatcher hands out for the new timer, 0 when the thread has no
    dispatcher to register it with. *)
Definition startTimer (registered : Z) (ms : Z) (ty : TimerType)
    (d : EnginePrivate) : Z * EnginePrivate :=
  if ms <? 0 then (0, d)
  else if registered =? 0 then (0, d)
  else (registered,
        with_runningTimers (<[registered := mkTimerInfo ms ty]> (runningTimers d)) d).

(** [QObject::killTimer]: an identifier that is not a running timer of
    this object is left alone (Qt prints a warning). *)
Definition killTimer (id : Z) (d : EnginePrivate) : EnginePrivate :=
  if id =? 0 then d
  else if contains id (runningTimers d)
       then with_runningTimers (delete id (runningTimers d)) d
       else d.

(** [QCoreApplication::postEvent] with this object as the receiver. *)
Definition postEvent (e : QEvent) (prio : Z) (d : EnginePrivate) : EnginePrivate :=
  with_postEventList (addEvent (mkPostEvent e prio) (postEventList d)) d.

(** The call data of a script function call: [argc] is the length of
    [args]. *)
Record CallData := mkCallData { thisObject : Value; args : list Value }.

(** The script-facing functions below start with [NODE_CTX_CALLDATA(ctx)],
    which binds [callData] to the call data of the calling context; of it
    they read [argc] and [args] only, so they take the argument list. *)
Definition argc (cd : list Value) : Z := Z.of_nat (length cd).
Definition arg (cd : list Value) (i : nat) : Value := nth i cd VUndefined.

(** ** Timer scheduler *)

(** [EnginePrivate::setTimeout] *)
Definition setTimeout (registered : Z) (callData : list Value)
    (d : EnginePrivate) : ReturnedValue * EnginePrivate :=
  if argc callData <? 2 then (throwError "setTimeout: missing arguments", d)
  else
    match asFunctionObject (arg callData 0) with
    | None => (throwTypeError "setTimeout: callback must be a function", d)
    | Some cb =>
        if negb (isNumber (arg callData 1))
        then (throwTypeError "setTimeout: timeout must be an integer", d)
        else
          let delay := toInt32 (arg callData 1) in
          let delay := if delay <=? 0 then 1 else delay in
          let '(timerId, d) := startTimer registered delay PreciseTimer d in
          if timerId =? 0 then (throwError "setTimeout: cannot start timer", d)
          else
            (Return (VInteger timerId),
             with_timeoutCallbacks (<[timerId := cb]> (m_timeoutCallbacks d)) d)
    end.

(** [EnginePrivate::clearTimeout] *)
Definition clearTimeout (callData : list Value)
    (d : EnginePrivate) : ReturnedValue * EnginePrivate :=
  if argc callData <? 1 then (throwError "clearTimeout: missing arguments", d)
  else if negb (isNumber (arg callData 0))
  then (throwTypeError "clearTimeout: timeout must be an integer (at the moment)", d)
  else
    let timerId := toInt32 (arg callData 0) in
    let d :=
      if contains timerId (m_timeoutCallbacks d)
      then
        let d := killTimer timerId d in
        with_timeoutCallbacks (delete timerId (m_timeoutCallbacks d)) d
      else d in
    (Return VUndefined, d).

(** [EnginePrivate::setInterval] *)
Definition setInterval (registered : Z) (callData : list Value)
    (d : EnginePrivate) : ReturnedValue * EnginePrivate :=
  if argc callData <? 2 then (throwError "setInterval: missing arguments", d)
  else
    match asFunctionObject (arg callData 0) with
    | None => (throwTypeError "setInterval: callback must be a function", d)
    | Some cb =>
        if negb (isNumber (arg callData 1))
        then (throwTypeError "setInterval: timeout must be an integer", d)
        else
          let delay := toInt32 (arg callData 1) in
          let delay := if delay <=? 0 then 1 else delay in
          let '(timerId, d) := startTimer registered delay PreciseTimer d in
          if timerId =? 0 then (throwError "setInterval: cannot start timer", d)
          else
            (Return (VInteger timerId),
             with_intervalCallbacks (<[timerId := cb]> (m_intervalCallbacks d)) d)
    end.

(** [EnginePrivate::clearInterval] *)
Definition clearInterval (callData : list Value)
    (d : EnginePrivate) : ReturnedValue * EnginePrivate :=
  if argc callData <? 1 then (throwError "clearInterval: missing arguments", d)
  else if negb (isNumber (arg callData 0))
  then (throwTypeError "clearInterval: timeout must be an integer (at the moment)", d)
  else
    let timerId := toInt32 (arg callData 0) in
    let d :=
      if negb (contains timerId (m_intervalCallbacks d))
      then
        let d := killTimer timerId d in
        with_intervalCallbacks (delete timerId (m_intervalCallbacks d)) d
      else d in
    (Return VUndefined, d).

(** ** Deferred callbacks *)

(** [EnginePrivate::nextTick] *)
Definition nextTick (callData : list Value)
    (d : EnginePrivate) : ReturnedValue * EnginePrivate :=
  if argc callData =? 0 then (throwError "setInterval: missing arguments", d)
  else
    match asFunctionObject (arg callData 0) with
    | None => (throwTypeError "setInterval: callback must be a function", d)
    | Some cb => (Return VUndefined, postEvent (NextTickEvent cb) INT_MAX d)
    end.

(** ** Dispatch *)

(** What running a script function does to the engine is the interpreter's
    business (the function may set and clear timers itself), so the
    dispatchers take the interpreter's [call] as an argument. *)
Definition Call := FunctionObject -> CallData -> EnginePrivate -> EnginePrivate.

(** [EnginePrivate::customEvent]; an event of another type is handed to
    [QObject::customEvent], which does nothing. *)
Definition customEvent (call : Call) (ev : QEvent) (d : EnginePrivate) : EnginePrivate :=
  match ev with
  | OtherEvent _ => d
  | NextTickEvent cb =>
      let callData := mkCallData (globalObject d) [] in
      call cb callData d
  end.

(** [EnginePrivate::timerEvent] *)
Definition timerEvent (call : Call) (timerId : Z) (d : EnginePrivate) : EnginePrivate :=
  let pick :=
    if contains timerId (m_timeoutCallbacks d) then
      let d := killTimer timerId d in
      let '(cb, h) := take timerId (m_timeoutCallbacks d) in
      (cb, with_timeoutCallbacks h d)
    else if contains timerId (m_intervalCallbacks d) then
      (value timerId (m_intervalCallbacks d), d)
    else (None, d) in
  match pick with
  | (Some cb, d) =>
      let callData := mkCallData (globalObject d) [] in
      call cb callData d
  | (None, d) => d
  end.

(** One turn of the host loop over the posted events: the event at the
    head of the queue is taken off and delivered to this object. *)
Definition sendPostedEvent (call : Call) (d : EnginePrivate) : EnginePrivate :=
  match postEventList d with
  | [] => d
  | pe :: rest => customEvent call (event pe) (with_postEventList rest d)
  end.

(** ** Error bridge *)

Definition isEmpty (s : string) : bool :=
  match s with EmptyString => true | _ => false end.

Definition defineDefaultProperty (name : string) (v : Value)
    (self : gmap string Value) : gmap string Value :=
  <[name := v]> self.

(** [QV4::Heap::ErrorObject] built from a message.  Qt's constructor is not
    among the sources: this stand-in keeps, of what the base class sets up,
    the [message] property only. *)
Definition ErrorObject (message : string) : gmap string Value :=
  defineDefaultProperty "message" (VString message) ∅.

(** [Heap::ErrnoExceptionObject::ErrnoExceptionObject] *)
Definition ErrnoExceptionObject (message : string) (errorNo : Z)
    (syscall path : string) : gmap string Value :=
  let self := ErrorObject message in
  let self := defineDefaultProperty "errno" (VInteger errorNo) self in
  let self :=
    if negb (isEmpty syscall)
    then defineDefaultProperty "syscall" (VString syscall) self else self in
  let self :=
    if negb (isEmpty path)
    then defineDefaultProperty "path" (VString path) self else self in
  self.

(** Modelled from the spec: the default of the constructor's [path]
    parameter is declared in errnoexception.h, which is not among the
    sources.  The entry point below passes no path, and the spec has the
    [path] field absent in that case, so the default is the empty string. *)
Definition defaultPath : string := "".

(** [EnginePrivate::throwErrnoException]; [strerror] is the C library's. *)
Definition throwErrnoException (strerror : Z -> string) (errorNo : Z)
    (syscall : string) : ReturnedValue :=
  let message := strerror errorNo in
  Throw (ErrnoException (ErrnoExceptionObject message errorNo syscall defaultPath)).

(** ** Module cache and engine registry *)

(** Outcome of code that carries a [Q_ASSERT]: the assertion, where it is
    compiled in, stops the program when its condition is false. *)
Inductive Checked (A : Type) :=
| Done (a : A)
| AssertionFailed (cond : string).
Arguments Done {A} a.
Arguments AssertionFailed {A} cond.

Definition Q_ASSERT {A : Type} (cond : bool) (text : string) (k : Checked A) : Checked A :=
  if cond then k else AssertionFailed text.

(** [EnginePrivate::cacheModule] *)
Definition cacheModule (id : string) (module : ModuleObject)
    (d : EnginePrivate) : Checked EnginePrivate :=
  Q_ASSERT (negb (contains id (m_cachedModules d))) "!m_cachedModules.contains(id)"
    (Done (with_cachedModules (<[id := module]> (m_cachedModules d)) d)).

Definition hasCachedModule (id : string) (d : EnginePrivate) : bool :=
  contains id (m_cachedModules d).

Definition cachedModule (id : string) (d : EnginePrivate) : option ModuleObject :=
  value id (m_cachedModules d).

(** The static [m_nodeEngines]: from the address of a [QV4::ExecutionEngine]
    to the address of its [EnginePrivate]. *)
Module Registry.
Definition ExecutionEngine := positive.
Definition EnginePrivatePtr := positive.

(** [EnginePrivate::get] *)
Definition get (v4 : ExecutionEngine)
    (m_nodeEngines : gmap positive positive) : option EnginePrivatePtr :=
  value v4 m_nodeEngines.

(** The registration done by the constructor [EnginePrivate::EnginePrivate].
    It carries no assertion: the insertion always completes. *)
Definition construct (m_v4 : ExecutionEngine) (this : EnginePrivatePtr)
    (m_nodeEngines : gmap positive positive) : Checked (gmap positive positive) :=
  Done (<[m_v4 := this]> m_nodeEngines).

(** [EnginePrivate::~EnginePrivate] *)
Definition destruct_ (m_v4 : ExecutionEngine)
    (m_nodeEngines : gmap positive positive) : gmap positive positive :=
  delete m_v4 m_nodeEngines.
End Registry.

(** ** Further parts of the engine *)

(** The static [NextTickEvent::m_type] starts as [QEvent::None]. *)
Definition QEvent_None : Z := 0.

(** [NextTickEvent::eventType]: the type is registered with Qt on the
    first call and kept in [m_type]; [registered] is what
    [QEvent::registerEventType] answers.  The result is the type together
    with the new [m_type]. *)
Definition eventType (registered : Z) (m_type : Z) : Z * Z :=
  let m_type := if m_type =? QEvent_None then registered else m_type in
  (m_type, m_type).

(** [EnginePrivate::registerModules]; the four arguments are the module
    objects the memory manager allocates, the map is [m_coreModules]. *)
Definition registerModules (fs os path util : Value)
    (m_coreModules : gmap string Value) : gmap string Value :=
  let m_coreModules := <["fs" := fs]> m_coreModules in
  let m_coreModules := <["os" := os]> m_coreModules in
  let m_coreModules := <["path" := path]> m_coreModules in
  <["util" := util]> m_coreModules.

(** [EnginePrivate::hasNativeModule] *)
Definition hasNativeModule (id : string) (m_coreModules : gmap string Value) : bool :=
  contains id m_coreModules.

(** [EnginePrivate::nativeModule] *)
Definition nativeModule (id : string) (m_coreModules : gmap string Value) : option Value :=
  value id m_coreModules.

(** *** Notions for the properties of the timer tables and the queue *)

(** The timer tables agree with the host: 0 is no timer, every recorded
    callback has its host timer running, and no identifier is in both
    tables. *)
Definition consistent (d : EnginePrivate) : Prop :=
  runningTimers d !! 0 = None /\
  dom (m_timeoutCallbacks d) ⊆ dom (runningTimers d) /\
  dom (m_intervalCallbacks d) ⊆ dom (runningTimers d) /\
  dom (m_timeoutCallbacks d) ## dom (m_intervalCallbacks d).

(** The wake-up [nextTick] posts for a callback. *)
Definition wakeUp (cb : FunctionObject) : QPostEvent :=
  mkPostEvent (NextTickEvent cb) INT_MAX.

(** The call data every dispatcher uses on engine [d]. *)
Definition plainCall (d : EnginePrivate) : CallData :=
  mkCallData (globalObject d) [].

(** Script functions that set and clear no timer and leave the global
    object in place. *)
Definition keepsTimers (call : Call) : Prop :=
  forall cb callData e,
    m_timeoutCallbacks (call cb callData e) = m_timeoutCallbacks e /\
    m_intervalCallbacks (call cb callData e) = m_intervalCallbacks e /\
    globalObject (call cb callData e) = globalObject e.

(** Script functions that post nothing and leave the global object in
    place. *)
Definition keepsQueue (call : Call) : Prop :=
  forall cb callData e,
    postEventList (call cb callData e) = postEventList e /\
    globalObject (call cb callData e) = globalObject e.

(** A callback that defers itself once more, and one that records itself
    in the module cache under the name "last". *)
Definition deferAgain : Call :=
  fun cb _ d => (nextTick [VFunction cb] d).2.

Definition noteLast : Call :=
  fun cb _ d => with_cachedModules (<["last" := cb]> (m_cachedModules d)) d.

(** ** Notions used by the statements *)

(** The delay handed to the host: never below 1. *)
Definition clamp (delay : Z) : Z := if delay <=? 0 then 1 else delay.

(** The message an exception carries. *)
Definition exceptionMessage (e : Exception) : option string :=
  match e with
  | Error m | TypeError m => Some m
  | ErrnoException o =>
      match o !! "message" with Some (VString m) => Some m | _ => None end
  end.


(** A callback that sets a one-shot timer again when it runs, the host
    handing out [registered]. *)
Definition rearm (registered : Z) : Call :=
  fun cb _ d => (setTimeout registered [VFunction cb; VInteger 10] d).2.

(** An interpreter stub that keeps nothing but the call data it was given:
    the receiver, and the number of arguments as the type of a posted
    event. *)
Definition probe : Call :=
  fun _ callData _ =>
    mkEnginePrivate ∅ ∅ ∅ (thisObject callData) ∅
                    [mkPostEvent (OtherEvent (argc (args callData))) 0].

(** The number a numeric script value stands for, when it is finite. *)
Definition represents (v : Value) (q : Q) : Prop :=
  match v with
  | VInteger i => Qeq q (inject_Z i)
  | VDouble (S754_zero _) => Qeq q 0
  | VDouble (S754_finite s m e) => Qeq q (double_value s m e)
  | _ => False
  end.

(** The doubles nearest to 5.9 and 1.9, and the doubles -2147483649 and
    2147483648, one step outside the [int] range on either side. *)
Definition double_5_9 : spec_float := S754_finite false 6642809450371482 (-50).
Definition double_1_9 : spec_float := S754_finite false 8556839292003942 (-52).
Definition double_below_INT_MIN : spec_float := S754_finite true 4503599629467648 (-21).
Definition double_above_INT_MAX : spec_float := S754_finite false 4503599627370496 (-21).

(** *** Sample engines *)

(** A script function, the global object and a fresh engine. *)
Definition f1 : FunctionObject := 1%positive.
Definition f2 : FunctionObject := 2%positive.
Definition theGlobal : Value := VObject 1%positive.

Definition fresh : EnginePrivate :=
  mkEnginePrivate ∅ ∅ ∅ theGlobal ∅ [].

(** An engine after [setInterval(f1, 100)] got timer 7 from the host. *)
Definition withInterval7 : EnginePrivate :=
  mkEnginePrivate ∅ {[ 7 := f1 ]} ∅ theGlobal
                  {[ 7 := mkTimerInfo 100 PreciseTimer ]} [].

(** An engine after [setTimeout(f1, 100)] got timer 3 from the host. *)
Definition withTimeout3 : EnginePrivate :=
  mkEnginePrivate {[ 3 := f1 ]} ∅ ∅ theGlobal
                  {[ 3 := mkTimerInfo 100 PreciseTimer ]} [].

(** The body of [Heap::ErrnoExceptionObject::ErrnoExceptionObject], on the
    object [self] as the base-class constructor left it, whatever that
    is. *)
Definition defineErrnoProperties (errorNo : Z) (syscall path : string)
    (self : gmap string Value) : gmap string Value :=
  let self := defineDefaultProperty "errno" (VInteger errorNo) self in
  let self :=
    if negb (isEmpty syscall)
    then defineDefaultProperty "syscall" (VString syscall) self else self in
  let self :=
    if negb (isEmpty path)
    then defineDefaultProperty "path" (VString path) self else self in
  self.

(** An engine whose object has the host timers 1 and 2 running, timer 2
    being a repeating timer of the script. *)
Definition withHostTimers12 : EnginePrivate :=
  mkEnginePrivate ∅ {[ 2 := f1 ]} ∅ theGlobal
                  {[ 1 := mkTimerInfo 100 PreciseTimer;
                     2 := mkTimerInfo 100 PreciseTimer ]} [].

(** An engine with an ordinary event (priority 0) already posted. *)
Definition withPending : EnginePrivate :=
  mkEnginePrivate ∅ ∅ ∅ theGlobal ∅ [mkPostEvent (OtherEvent 1000) 0].

(** * Properties *)

(** ** [QHash] and the host timers *)

Lemma contains_true `{Countable K} {V} (k : K) (h : gmap K V) :
  contains k h = true <-> is_Some (h !! k).
Proof.
  unfold contains. destruct (h !! k) as [x|]; split; intros Hx; done.
Qed.

Lemma contains_false `{Countable K} {V} (k : K) (h : gmap K V) :
  contains k h = false <-> h !! k = None.
Proof. unfold contains. by destruct (h !! k). Qed.

Lemma contains_Some `{Countable K} {V} (k : K) (h : gmap K V) x :
  h !! k = Some x -> contains k h = true.
Proof. intros Hx. unfold contains. by rewrite Hx. Qed.

Lemma killTimer_timeoutCallbacks id d :
  m_timeoutCallbacks (killTimer id d) = m_timeoutCallbacks d.
Proof. unfold killTimer. by repeat case_match. Qed.

Lemma killTimer_intervalCallbacks id d :
  m_intervalCallbacks (killTimer id d) = m_intervalCallbacks d.
Proof. unfold killTimer. by repeat case_match. Qed.

Lemma killTimer_cachedModules id d :
  m_cachedModules (killTimer id d) = m_cachedModules d.
Proof. unfold killTimer. by repeat case_match. Qed.

Lemma killTimer_globalObject id d :
  globalObject (killTimer id d) = globalObject d.
Proof. unfold killTimer. by repeat case_match. Qed.

Lemma killTimer_postEventList id d :
  postEventList (killTimer id d) = postEventList d.
Proof. unfold killTimer. by repeat case_match. Qed.

(** Zero is never the identifier of a running timer; with that, killing a
    timer is the removal of its identifier. *)
Lemma killTimer_runningTimers id d :
  runningTimers d !! 0 = None ->
  runningTimers (killTimer id d) = delete id (runningTimers d).
Proof.
  intros H0. unfold killTimer.
  destruct (Z.eqb_spec id 0) as [->|Hne].
  - by rewrite delete_id.
  - destruct (contains id (runningTimers d)) eqn:Hc; [done|].
    apply contains_false in Hc. by rewrite delete_id.
Qed.

Lemma killTimer_absent id d :
  runningTimers d !! id = None -> killTimer id d = d.
Proof.
  intros Hn. unfold killTimer. destruct (id =? 0); [done|].
  apply contains_false in Hn. by rewrite Hn.
Qed.

Lemma startTimer_fails ms ty d :
  startTimer 0 ms ty d = (0, d).
Proof. unfold startTimer. by destruct (ms <? 0). Qed.

Lemma startTimer_starts registered ms ty d :
  registered <> 0 -> 0 <= ms ->
  startTimer registered ms ty d =
    (registered,
     with_runningTimers (<[registered := mkTimerInfo ms ty]> (runningTimers d)) d).
Proof.
  intros Hr Hms. unfold startTimer.
  destruct (Z.ltb_spec ms 0); [lia|].
  destruct (Z.eqb_spec registered 0); [lia|done].
Qed.

Lemma clamp_pos delay : 0 <= clamp delay.
Proof. unfold clamp. destruct (Z.leb_spec delay 0); lia. Qed.

Lemma argc_two a0 a1 (rest : list Value) : (argc (a0 :: a1 :: rest) <? 2) = false.
Proof. apply Z.ltb_ge. unfold argc. simpl length. lia. Qed.

Lemma argc_one a0 (rest : list Value) : (argc (a0 :: rest) <? 1) = false.
Proof. apply Z.ltb_ge. unfold argc. simpl length. lia. Qed.

Lemma argc_short (callData : list Value) :
  (length callData < 2)%nat -> (argc callData <? 2) = true.
Proof. intros Hl. apply Z.ltb_lt. unfold argc. lia. Qed.

(** ** Setting timers *)

Lemma setTimeout_started registered cb v rest d :
  isNumber v = true -> registered <> 0 ->
  setTimeout registered (VFunction cb :: v :: rest) d =
    (Return (VInteger registered),
     mkEnginePrivate (<[registered := cb]> (m_timeoutCallbacks d))
       (m_intervalCallbacks d) (m_cachedModules d) (globalObject d)
       (<[registered := mkTimerInfo (clamp (toInt32 v)) PreciseTimer]> (runningTimers d))
       (postEventList d)).
Proof.
  intros Hn Hr. unfold setTimeout. rewrite argc_two. cbn [arg nth asFunctionObject].
  rewrite Hn. cbn [negb]. fold (clamp (toInt32 v)).
  rewrite (startTimer_starts _ _ _ _ Hr (clamp_pos _)).
  destruct (Z.eqb_spec registered 0); [lia|done].
Qed.

Lemma setInterval_started registered cb v rest d :
  isNumber v = true -> registered <> 0 ->
  setInterval registered (VFunction cb :: v :: rest) d =
    (Return (VInteger registered),
     mkEnginePrivate (m_timeoutCallbacks d)
       (<[registered := cb]> (m_intervalCallbacks d)) (m_cachedModules d) (globalObject d)
       (<[registered := mkTimerInfo (clamp (toInt32 v)) PreciseTimer]> (runningTimers d))
       (postEventList d)).
Proof.
  intros Hn Hr. unfold setInterval. rewrite argc_two. cbn [arg nth asFunctionObject].
  rewrite Hn. cbn [negb]. fold (clamp (toInt32 v)).
  rewrite (startTimer_starts _ _ _ _ Hr (clamp_pos _)).
  destruct (Z.eqb_spec registered 0); [lia|done].
Qed.

Lemma setTimeout_refused cb v rest d :
  isNumber v = true ->
  setTimeout 0 (VFunction cb :: v :: rest) d =
    (Throw (Error "setTimeout: cannot start timer"), d).
Proof.
  intros Hn. unfold setTimeout. rewrite argc_two. cbn [arg nth asFunctionObject].
  rewrite Hn. cbn [negb]. by rewrite startTimer_fails.
Qed.

Lemma setInterval_refused cb v rest d :
  isNumber v = true ->
  setInterval 0 (VFunction cb :: v :: rest) d =
    (Throw (Error "setInterval: cannot start timer"), d).
Proof.
  intros Hn. unfold setInterval. rewrite argc_two. cbn [arg nth asFunctionObject].
  rewrite Hn. cbn [negb]. by rewrite startTimer_fails.
Qed.

(** C5. [setTimeout] and [setInterval] raise an argument error, leaving
    the engine (callback tables and host timers) as it was, when they get
    fewer than two arguments, a first argument that is not a function or a
    second that is not a number.  With valid arguments they ask the host
    for a timer: if the host gives none they raise a scheduling error and
    the engine is again as it was; otherwise the callback is recorded under
    the identifier the host returned, in the table of the operation, and
    that identifier is the result. *)
Theorem setTimeout_setInterval_contract
    (registered : Z) (callData : list Value) (d : EnginePrivate) :
  ((length callData < 2)%nat ->
     setTimeout registered callData d
       = (Throw (Error "setTimeout: missing arguments"), d) /\
     setInterval registered callData d
       = (Throw (Error "setInterval: missing arguments"), d)) /\
  (forall a0 a1 rest, callData = a0 :: a1 :: rest ->
     asFunctionObject a0 = None ->
     setTimeout registered callData d
       = (Throw (TypeError "setTimeout: callback must be a function"), d) /\
     setInterval registered callData d
       = (Throw (TypeError "setInterval: callback must be a function"), d)) /\
  (forall cb a1 rest, callData = VFunction cb :: a1 :: rest ->
     isNumber a1 = false ->
     setTimeout registered callData d
       = (Throw (TypeError "setTimeout: timeout must be an integer"), d) /\
     setInterval registered callData d
       = (Throw (TypeError "setInterval: timeout must be an integer"), d)) /\
  (forall cb a1 rest, callData = VFunction cb :: a1 :: rest ->
     isNumber a1 = true -> registered = 0 ->
     setTimeout registered callData d
       = (Throw (Error "setTimeout: cannot start timer"), d) /\
     setInterval registered callData d
       = (Throw (Error "setInterval: cannot start timer"), d)) /\
  (forall cb a1 rest, callData = VFunction cb :: a1 :: rest ->
     isNumber a1 = true -> registered <> 0 ->
     let t := setTimeout registered callData d in
     let i := setInterval registered callData d in
     (t.1 = Return (VInteger registered) /\
      m_timeoutCallbacks t.2 = <[registered := cb]> (m_timeoutCallbacks d) /\
      m_intervalCallbacks t.2 = m_intervalCallbacks d /\
      dom (runningTimers t.2) = {[registered]} ∪ dom (runningTimers d)) /\
     (i.1 = Return (VInteger registered) /\
      m_intervalCallbacks i.2 = <[registered := cb]> (m_intervalCallbacks d) /\
      m_timeoutCallbacks i.2 = m_timeoutCallbacks d /\
      dom (runningTimers i.2) = {[registered]} ∪ dom (runningTimers d))).
Proof.
  split; [|split; [|split; [|split]]].
  - intros Hshort.
    split; [unfold setTimeout|unfold setInterval]; by rewrite argc_short.
  - intros a0 a1 rest -> Hf.
    split; [unfold setTimeout|unfold setInterval];
      rewrite argc_two; cbn [arg nth]; by rewrite Hf.
  - intros cb a1 rest -> Hn.
    split; [unfold setTimeout|unfold setInterval];
      rewrite argc_two; cbn [arg nth asFunctionObject]; by rewrite Hn.
  - intros cb a1 rest -> Hn ->.
    split; [by apply setTimeout_refused|by apply setInterval_refused].
  - intros cb a1 rest -> Hn Hr t i. subst t i.
    rewrite setTimeout_started, setInterval_started by done.
    cbn. repeat split; apply dom_insert_L.
Qed.

Lemma setTimeout_setInterval_contract_witness :
  (setTimeout 4 [VFunction f1; VInteger 10] fresh).1 = Return (VInteger 4) /\
  m_timeoutCallbacks (setTimeout 4 [VFunction f1; VInteger 10] fresh).2 !! 4 = Some f1 /\
  setInterval 4 [VFunction f1] fresh
    = (Throw (Error "setInterval: missing arguments"), fresh).
Proof.
  destruct (setTimeout_setInterval_contract 4 [VFunction f1; VInteger 10] fresh)
    as (_ & _ & _ & _ & Hok).
  destruct (Hok f1 (VInteger 10) [] eq_refl eq_refl ltac:(lia)) as [(Hr & Ht & _) _].
  destruct (setTimeout_setInterval_contract 4 [VFunction f1] fresh) as (Hshort & _).
  destruct (Hshort ltac:(simpl; lia)) as [_ Hi].
  split; [exact Hr|]. split; [|exact Hi].
  rewrite Ht. reflexivity.
Defined.

(** ** Clearing timers *)

Lemma clearTimeout_not_a_number v rest d :
  isNumber v = false ->
  clearTimeout (v :: rest) d =
    (Throw (TypeError "clearTimeout: timeout must be an integer (at the moment)"), d).
Proof.
  intros Hn. unfold clearTimeout. rewrite argc_one. cbn [arg nth]. by rewrite Hn.
Qed.

Lemma clearInterval_not_a_number v rest d :
  isNumber v = false ->
  clearInterval (v :: rest) d =
    (Throw (TypeError "clearInterval: timeout must be an integer (at the moment)"), d).
Proof.
  intros Hn. unfold clearInterval. rewrite argc_one. cbn [arg nth]. by rewrite Hn.
Qed.

(** [clearTimeout] on a registered identifier: the entry leaves the
    one-shot table and the host timer is killed. *)
Lemma clearTimeout_registered v rest d cb :
  isNumber v = true ->
  runningTimers d !! 0 = None ->
  m_timeoutCallbacks d !! toInt32 v = Some cb ->
  clearTimeout (v :: rest) d =
    (Return VUndefined,
     mkEnginePrivate (delete (toInt32 v) (m_timeoutCallbacks d))
       (m_intervalCallbacks d) (m_cachedModules d) (globalObject d)
       (delete (toInt32 v) (runningTimers d)) (postEventList d)).
Proof.
  intros Hn H0 Hcb. unfold clearTimeout. rewrite argc_one. cbn [arg nth].
  rewrite Hn. cbn [negb]. rewrite (contains_Some _ _ _ Hcb).
  unfold with_timeoutCallbacks.
  rewrite killTimer_timeoutCallbacks, killTimer_intervalCallbacks,
    killTimer_cachedModules, killTimer_globalObject, killTimer_postEventList.
  by rewrite killTimer_runningTimers.
Qed.

(** [clearTimeout] on an identifier that is not in the one-shot table
    returns with the engine as it was. *)
Lemma clearTimeout_unknown v rest d :
  isNumber v = true ->
  m_timeoutCallbacks d !! toInt32 v = None ->
  clearTimeout (v :: rest) d = (Return VUndefined, d).
Proof.
  intros Hn Hcb. unfold clearTimeout. rewrite argc_one. cbn [arg nth].
  rewrite Hn. cbn [negb]. apply contains_false in Hcb. by rewrite Hcb.
Qed.

(** [clearInterval] tests the table the other way round.  On a registered
    identifier it does nothing at all. *)
Lemma clearInterval_registered v rest d cb :
  isNumber v = true ->
  m_intervalCallbacks d !! toInt32 v = Some cb ->
  clearInterval (v :: rest) d = (Return VUndefined, d).
Proof.
  intros Hn Hcb. unfold clearInterval. rewrite argc_one. cbn [arg nth].
  rewrite Hn. cbn [negb]. by rewrite (contains_Some _ _ _ Hcb).
Qed.

(** On an identifier that is not in the repeating table it kills the host
    timer of that identifier, whoever started it. *)
Lemma clearInterval_unknown v rest d :
  isNumber v = true ->
  runningTimers d !! 0 = None ->
  m_intervalCallbacks d !! toInt32 v = None ->
  clearInterval (v :: rest) d =
    (Return VUndefined,
     with_runningTimers (delete (toInt32 v) (runningTimers d)) d).
Proof.
  intros Hn H0 Hcb. unfold clearInterval. rewrite argc_one. cbn [arg nth].
  rewrite Hn. cbn [negb]. rewrite (proj2 (contains_false _ _) Hcb). cbn [negb].
  unfold with_intervalCallbacks, with_runningTimers.
  rewrite killTimer_timeoutCallbacks, killTimer_intervalCallbacks,
    killTimer_cachedModules, killTimer_globalObject, killTimer_postEventList.
  rewrite killTimer_runningTimers by done. by rewrite delete_id.
Qed.

(** C1, the code at two inputs.  [clearInterval(7)] on an engine whose
    repeating table holds timer 7 returns without removing the entry and
    without cancelling the host timer; [clearInterval(3)] on an engine
    whose one-shot table holds timer 3 cancels the host timer of that
    one-shot registration and leaves its entry behind.  [clearTimeout] on
    the same engines does what is described: it removes and cancels timer
    3, and is a no-op on the unknown identifier 7. *)
Theorem clearInterval_guard_inverted :
  (clearInterval [VInteger 7] withInterval7 = (Return VUndefined, withInterval7) /\
   m_intervalCallbacks withInterval7 !! 7 = Some f1 /\
   is_Some (runningTimers withInterval7 !! 7)) /\
  (m_intervalCallbacks withTimeout3 !! 3 = None /\
   runningTimers (clearInterval [VInteger 3] withTimeout3).2 !! 3 = None /\
   m_timeoutCallbacks (clearInterval [VInteger 3] withTimeout3).2 !! 3 = Some f1) /\
  (clearTimeout [VInteger 3] withTimeout3 = (Return VUndefined, fresh) /\
   clearTimeout [VInteger 7] withTimeout3 = (Return VUndefined, withTimeout3)).
Proof.
  split; [|split].
  - split; [|split].
    + by apply (clearInterval_registered (VInteger 7) [] withInterval7 f1).
    + done.
    + by eexists.
  - split; [done|].
    rewrite (clearInterval_unknown (VInteger 3) [] withTimeout3) by done.
    split; [|done]. cbn. apply lookup_delete_eq.
  - split.
    + rewrite (clearTimeout_registered (VInteger 3) [] withTimeout3 f1) by done.
      cbn. unfold fresh. f_equal; apply delete_singleton_eq.
    + by apply clearTimeout_unknown.
Qed.

(** ** Timer dispatch *)

Lemma timerEvent_timeout call timerId d cb :
  runningTimers d !! 0 = None ->
  m_timeoutCallbacks d !! timerId = Some cb ->
  timerEvent call timerId d =
    call cb (mkCallData (globalObject d) [])
      (mkEnginePrivate (delete timerId (m_timeoutCallbacks d))
         (m_intervalCallbacks d) (m_cachedModules d) (globalObject d)
         (delete timerId (runningTimers d)) (postEventList d)).
Proof.
  intros H0 Hcb. unfold timerEvent, take.
  rewrite (contains_Some _ _ _ Hcb).
  rewrite killTimer_timeoutCallbacks, Hcb. unfold with_timeoutCallbacks.
  rewrite killTimer_intervalCallbacks, killTimer_cachedModules,
    killTimer_globalObject, killTimer_postEventList.
  by rewrite killTimer_runningTimers.
Qed.

Lemma timerEvent_interval call timerId d cb :
  m_timeoutCallbacks d !! timerId = None ->
  m_intervalCallbacks d !! timerId = Some cb ->
  timerEvent call timerId d = call cb (mkCallData (globalObject d) []) d.
Proof.
  intros Hn Hcb. unfold timerEvent, value.
  rewrite (proj2 (contains_false _ _) Hn), (contains_Some _ _ _ Hcb).
  by rewrite Hcb.
Qed.

Lemma timerEvent_unknown call timerId d :
  m_timeoutCallbacks d !! timerId = None ->
  m_intervalCallbacks d !! timerId = None ->
  timerEvent call timerId d = d.
Proof.
  intros Hn Hi. unfold timerEvent.
  by rewrite (proj2 (contains_false _ _) Hn), (proj2 (contains_false _ _) Hi).
Qed.

(** C4. When the host signals that timer [timerId] expired, the one-shot
    table is consulted first: if it holds the identifier, the callback is
    invoked on an engine from which the entry is already removed and whose
    host timer is already stopped, so whatever the callback does it finds
    no registration of the timer that just fired.  Otherwise, if the
    repeating table holds the identifier, the callback is invoked and the
    engine it sees is unchanged, the entry still in place.  An identifier
    in neither table leaves the engine as it was, no callback invoked. *)
Theorem timerEvent_dispatch (call : Call) (timerId : Z) (d : EnginePrivate) :
  runningTimers d !! 0 = None ->
  (forall cb, m_timeoutCallbacks d !! timerId = Some cb ->
     exists d',
       (forall call', timerEvent call' timerId d
                      = call' cb (mkCallData (globalObject d) []) d') /\
       m_timeoutCallbacks d' !! timerId = None /\
       runningTimers d' !! timerId = None /\
       (forall j, j <> timerId ->
          m_timeoutCallbacks d' !! j = m_timeoutCallbacks d !! j /\
          runningTimers d' !! j = runningTimers d !! j) /\
       m_intervalCallbacks d' = m_intervalCallbacks d) /\
  (forall cb, m_timeoutCallbacks d !! timerId = None ->
     m_intervalCallbacks d !! timerId = Some cb ->
     timerEvent call timerId d = call cb (mkCallData (globalObject d) []) d) /\
  (m_timeoutCallbacks d !! timerId = None ->
   m_intervalCallbacks d !! timerId = None ->
   timerEvent call timerId d = d).
Proof.
  intros H0. split; [|split].
  - intros cb Hcb. eexists. split.
    + intros call'. by apply timerEvent_timeout.
    + cbn. rewrite !lookup_delete_eq. repeat split; try done.
      * by rewrite lookup_delete_ne.
      * by rewrite lookup_delete_ne.
  - intros cb. apply timerEvent_interval.
  - apply timerEvent_unknown.
Qed.

(** The one-shot timer 3 fires and its callback sets a timer again; the
    host may hand out the identifier 3 once more, and the registration the
    callback leaves is the new one. *)
Lemma timerEvent_dispatch_witness :
  runningTimers withTimeout3 !! 0 = None /\
  m_timeoutCallbacks withTimeout3 !! 3 = Some f1 /\
  runningTimers (timerEvent (rearm 3) 3 withTimeout3) !! 3
    = Some (mkTimerInfo 10 PreciseTimer).
Proof.
  split; [reflexivity|]. split; [reflexivity|].
  destruct (timerEvent_dispatch (rearm 3) 3 withTimeout3 eq_refl) as (Hfire & _ & _).
  destruct (Hfire f1 eq_refl) as (d' & Hcall & _).
  rewrite (Hcall (rearm 3)). unfold rearm.
  rewrite setTimeout_started by (reflexivity || lia).
  cbn. apply lookup_insert_eq.
Defined.

(** ** Receiver and arguments of the callbacks *)

(** C8. Whatever the dispatchers invoke, they invoke with the global
    object as [thisObject] and an empty argument list: for the timer
    dispatcher, for the handler of posted events and for one turn of the
    host loop over the queue, the outcome is either the engine as it was
    or one call of a callback with exactly that call data.  The timer
    dispatcher invokes a callback exactly when the identifier is in one of
    the two tables, and the event handler exactly on a next-tick event, of
    which it invokes the callback. *)
Theorem callbacks_receiver_and_arguments (d : EnginePrivate) :
  (forall timerId, exists r : option (FunctionObject * EnginePrivate),
     (forall call, timerEvent call timerId d =
        match r with
        | Some (cb, d') => call cb (mkCallData (globalObject d) []) d'
        | None => d
        end) /\
     (r = None <->
        m_timeoutCallbacks d !! timerId = None /\
        m_intervalCallbacks d !! timerId = None) /\
     (forall cb d', r = Some (cb, d') ->
        m_timeoutCallbacks d !! timerId = Some cb \/
        m_intervalCallbacks d !! timerId = Some cb)) /\
  (forall ev, exists r : option FunctionObject,
     (forall call, customEvent call ev d =
        match r with
        | Some cb => call cb (mkCallData (globalObject d) []) d
        | None => d
        end) /\
     (forall cb, r = Some cb <-> ev = NextTickEvent cb)) /\
  (forall cb prio q, postEventList d = mkPostEvent (NextTickEvent cb) prio :: q ->
     forall call, sendPostedEvent call d =
       call cb (mkCallData (globalObject d) []) (with_postEventList q d)).
Proof.
  split; [|split].
  - intros timerId.
    destruct (m_timeoutCallbacks d !! timerId) as [cb|] eqn:Ht.
    + eexists (Some (cb, _)). split; [|split].
      * intros call. unfold timerEvent, take.
        rewrite (contains_Some _ _ _ Ht), killTimer_timeoutCallbacks, Ht.
        cbn [globalObject with_timeoutCallbacks]. rewrite killTimer_globalObject.
        reflexivity.
      * split; [done|]. by intros [? _].
      * intros cb' d' [= <- _]. by left.
    + destruct (m_intervalCallbacks d !! timerId) as [cb|] eqn:Hi.
      * exists (Some (cb, d)). split; [|split].
        -- intros call. by apply timerEvent_interval.
        -- split; [done|]. by intros [_ ?].
        -- intros cb' d' [= <- _]. by right.
      * exists None. split; [|split].
        -- intros call. by apply timerEvent_unknown.
        -- done.
        -- done.
  - intros [cb|ty].
    + exists (Some cb). split; [done|]. intros cb'. split; congruence.
    + exists None. split; [done|]. intros cb'. split; congruence.
  - intros cb prio q Hq call. unfold sendPostedEvent. rewrite Hq. reflexivity.
Qed.

Lemma callbacks_receiver_and_arguments_witness :
  timerEvent probe 7 withInterval7
    = mkEnginePrivate ∅ ∅ ∅ theGlobal ∅ [mkPostEvent (OtherEvent 0) 0] /\
  customEvent probe (NextTickEvent f1) withPending
    = mkEnginePrivate ∅ ∅ ∅ theGlobal ∅ [mkPostEvent (OtherEvent 0) 0].
Proof.
  destruct (callbacks_receiver_and_arguments withInterval7) as (Htimer & _ & _).
  destruct (callbacks_receiver_and_arguments withPending) as (_ & Hevent & _).
  destruct (Htimer 7) as (r & Hr & Hnone & _).
  destruct (Hevent (NextTickEvent f1)) as (r' & Hr' & Hcb').
  split.
  - rewrite Hr. destruct r as [[cb d']|]; [reflexivity|].
    destruct (proj1 Hnone eq_refl) as [_ Habs]. discriminate Habs.
  - rewrite Hr'. destruct r' as [cb|]; [reflexivity|].
    pose proof (proj2 (Hcb' f1) eq_refl) as Habs. discriminate Habs.
Defined.

(** ** The next-tick primitive *)

Lemma nextTick_posts cb rest d :
  nextTick (VFunction cb :: rest) d =
    (Return VUndefined, postEvent (NextTickEvent cb) INT_MAX d).
Proof.
  unfold nextTick. replace (argc (VFunction cb :: rest) =? 0) with false; [done|].
  symmetry. apply Z.eqb_neq. unfold argc. simpl length. lia.
Qed.

(** C10. The argument errors of [nextTick] carry the messages of
    [setInterval]: without arguments it raises an error with the message
    "setInterval: missing arguments", with a first argument that is not a
    function a type error with the message "setInterval: callback must be
    a function", and it raises nothing else; the engine is unchanged by a
    failed call. *)
Theorem nextTick_errors_name_setInterval (callData : list Value) (d : EnginePrivate) :
  (callData = [] ->
     nextTick callData d = (Throw (Error "setInterval: missing arguments"), d)) /\
  (forall a0 rest, callData = a0 :: rest -> asFunctionObject a0 = None ->
     nextTick callData d
       = (Throw (TypeError "setInterval: callback must be a function"), d)) /\
  (forall e d', nextTick callData d = (Throw e, d') ->
     d' = d /\
     (e = Error "setInterval: missing arguments" \/
      e = TypeError "setInterval: callback must be a function") /\
     exists m, exceptionMessage e = Some m /\ String.prefix "setInterval: " m = true).
Proof.
  split; [|split].
  - intros ->. reflexivity.
  - intros a0 rest -> Hf. unfold nextTick.
    replace (argc (a0 :: rest) =? 0) with false.
    + cbn [arg nth]. by rewrite Hf.
    + symmetry. apply Z.eqb_neq. unfold argc. simpl length. lia.
  - intros e d'. destruct callData as [|a0 rest].
    + intros [= <- <-]. split; [done|]. split; [by left|]. by eexists.
    + destruct (asFunctionObject a0) as [cb|] eqn:Hf.
      * destruct a0; try discriminate Hf. rewrite nextTick_posts. discriminate.
      * unfold nextTick.
        replace (argc (a0 :: rest) =? 0) with false.
        -- cbn [arg nth]. rewrite Hf. intros [= <- <-].
           split; [done|]. split; [by right|]. by eexists.
        -- symmetry. apply Z.eqb_neq. unfold argc. simpl length. lia.
Qed.

Lemma nextTick_errors_name_setInterval_witness :
  nextTick [] fresh = (Throw (Error "setInterval: missing arguments"), fresh) /\
  nextTick [VInteger 5] fresh
    = (Throw (TypeError "setInterval: callback must be a function"), fresh).
Proof.
  split.
  - exact (proj1 (nextTick_errors_name_setInterval [] fresh) eq_refl).
  - exact (proj1 (proj2 (nextTick_errors_name_setInterval [VInteger 5] fresh))
             (VInteger 5) [] eq_refl eq_refl).
Defined.

(** *** Where a posted event lands in the queue *)










(** ** Engine registry and module cache *)

(** C2 as the claim words it fails: the registration of a second
    [EnginePrivate] (address 20) for the engine at address 1, which
    already has one (address 10), completes without an assertion, and the
    registry then answers with the second. *)
Lemma construct_twice_completes :
  Registry.get 1%positive {[ 1%positive := 10%positive ]} = Some 10%positive /\
  Registry.construct 1%positive 20%positive {[ 1%positive := 10%positive ]}
    = Done {[ 1%positive := 20%positive ]} /\
  forall cond, Registry.construct 1%positive 20%positive {[ 1%positive := 10%positive ]}
               <> AssertionFailed cond.
Proof.
  split; [reflexivity|]. split.
  - reflexivity.
  - discriminate.
Qed.

(** C2, as the code has it.  The registry holds at most one
    [EnginePrivate] per engine: registering always completes, after it the
    engine is mapped to the newly registered object (an earlier one for the
    same engine is replaced) and the other engines keep theirs; destroying
    an [EnginePrivate] removes the entry of its engine.  The module
    cache is guarded: caching a module under an identifier that is already
    cached fails the assertion, under a new identifier it stores the
    module and leaves the other identifiers alone. *)
Theorem registry_replaces_cache_asserts :
  (forall v4 this reg,
     exists reg',
       Registry.construct v4 this reg = Done reg' /\
       Registry.get v4 reg' = Some this /\
       (forall p, Registry.get v4 reg' = Some p -> p = this) /\
       (forall v4', v4' <> v4 -> Registry.get v4' reg' = Registry.get v4' reg) /\
       Registry.get v4 (Registry.destruct_ v4 reg') = None) /\
  (forall id module d,
     hasCachedModule id d = true ->
     cacheModule id module d = AssertionFailed "!m_cachedModules.contains(id)") /\
  (forall id module d,
     hasCachedModule id d = false ->
     exists d',
       cacheModule id module d = Done d' /\
       cachedModule id d' = Some module /\
       (forall id', id' <> id -> cachedModule id' d' = cachedModule id' d) /\
       m_timeoutCallbacks d' = m_timeoutCallbacks d /\
       m_intervalCallbacks d' = m_intervalCallbacks d).
Proof.
  split; [|split].
  - intros v4 this reg. eexists. split; [reflexivity|].
    unfold Registry.get, value. rewrite lookup_insert_eq.
    split; [done|]. split; [congruence|]. split.
    + intros v4' Hne. by rewrite lookup_insert_ne.
    + unfold Registry.destruct_. apply lookup_delete_eq.
  - intros id module d Hc. unfold cacheModule, hasCachedModule in *. by rewrite Hc.
  - intros id module d Hc. unfold cacheModule, hasCachedModule in *. rewrite Hc.
    eexists. split; [reflexivity|]. unfold cachedModule, value. cbn.
    rewrite lookup_insert_eq. split; [done|]. split; [|done].
    intros id' Hne. by rewrite lookup_insert_ne.
Qed.

Lemma registry_replaces_cache_asserts_witness :
  hasCachedModule "a.js" (with_cachedModules {[ "a.js" := 5%positive ]} fresh) = true /\
  cacheModule "a.js" 6%positive (with_cachedModules {[ "a.js" := 5%positive ]} fresh)
    = AssertionFailed "!m_cachedModules.contains(id)" /\
  hasCachedModule "a.js" fresh = false /\
  (exists d', cacheModule "a.js" 5%positive fresh = Done d' /\
              cachedModule "a.js" d' = Some 5%positive).
Proof.
  destruct registry_replaces_cache_asserts as (_ & Hdup & Hnew).
  split; [reflexivity|]. split.
  - apply Hdup. reflexivity.
  - split; [reflexivity|].
    destruct (Hnew "a.js" 5%positive fresh eq_refl) as (d' & Hd & Hc & _).
    exists d'. by split.
Defined.

(** ** Error bridge *)

(** C7. The exception object built for an error code has the message it
    is given, an [errno] property with the code whatever the other
    arguments are, a [syscall] property exactly when the syscall string is
    not empty, and then with that string, and a [path] property exactly
    when the path string is not empty, and then with that string.  The
    bridge throws such an object with the message [strerror] gives for the
    code, the code as [errno], the syscall it was handed and no [path]. *)
Theorem errno_exception_fields :
  (forall message errorNo syscall path,
     let o := ErrnoExceptionObject message errorNo syscall path in
     o !! "message" = Some (VString message) /\
     o !! "errno" = Some (VInteger errorNo) /\
     (is_Some (o !! "syscall") <-> syscall <> "") /\
     (syscall <> "" -> o !! "syscall" = Some (VString syscall)) /\
     (is_Some (o !! "path") <-> path <> "") /\
     (path <> "" -> o !! "path" = Some (VString path))) /\
  (forall strerror errorNo syscall,
     exists o,
       throwErrnoException strerror errorNo syscall = Throw (ErrnoException o) /\
       exceptionMessage (ErrnoException o) = Some (strerror errorNo) /\
       o !! "errno" = Some (VInteger errorNo) /\
       (is_Some (o !! "syscall") <-> syscall <> "") /\
       (syscall <> "" -> o !! "syscall" = Some (VString syscall)) /\
       o !! "path" = None).
Proof.
  assert (Hshape : forall message errorNo syscall path,
     let o := ErrnoExceptionObject message errorNo syscall path in
     o !! "message" = Some (VString message) /\
     o !! "errno" = Some (VInteger errorNo) /\
     o !! "syscall" = (if isEmpty syscall then None else Some (VString syscall)) /\
     o !! "path" = (if isEmpty path then None else Some (VString path))).
  { intros message errorNo syscall path o. subst o.
    unfold ErrnoExceptionObject, ErrorObject, defineDefaultProperty.
    destruct (isEmpty syscall), (isEmpty path); cbn [negb];
      repeat split; by simplify_map_eq. }
  split.
  - intros message errorNo syscall path o.
    destruct (Hshape message errorNo syscall path) as (Hm & He & Hs & Hp).
    fold o in Hm, He, Hs, Hp. rewrite Hs, Hp.
    split; [done|]. split; [done|].
    destruct syscall as [|a s], path as [|b p]; cbn [isEmpty];
      repeat split; try done; try (by intros []); try (by eexists).
  - intros strerror errorNo syscall. eexists. split; [reflexivity|].
    destruct (Hshape (strerror errorNo) errorNo syscall defaultPath)
      as (Hm & He & Hs & Hp).
    cbn [exceptionMessage]. rewrite Hm, He, Hs, Hp.
    split; [done|]. split; [done|].
    destruct syscall as [|a s]; cbn [isEmpty];
      repeat split; try done; try (by intros []); try (by eexists).
Qed.

Lemma errno_exception_fields_witness :
  (ErrnoExceptionObject "No such file or directory" 2 "open" "/tmp/x") !! "path"
    = Some (VString "/tmp/x") /\
  (ErrnoExceptionObject "No such file or directory" 2 "open" "") !! "syscall"
    = Some (VString "open").
Proof.
  destruct errno_exception_fields as [Hshape _].
  split.
  - destruct (Hshape "No such file or directory" 2 "open" "/tmp/x")
      as (_ & _ & _ & _ & _ & Hp).
    apply Hp. discriminate.
  - destruct (Hshape "No such file or directory" 2 "open" "")
      as (_ & _ & _ & Hs & _).
    apply Hs. discriminate.
Defined.

(** ** Conversion of numeric arguments *)

Lemma pow2_to_pos k : 0 <= k -> Z.pos (Z.to_pos (2 ^ k)) = 2 ^ k.
Proof. intros Hk. apply Z2Pos.id. by apply Z.pow_pos_nonneg. Qed.

Lemma wrap32_in_range t : INT_MIN <= t <= INT_MAX -> wrap32 t = t.
Proof.
  unfold INT_MIN, INT_MAX, wrap32. intros Ht.
  rewrite Z.mod_small; lia.
Qed.

Lemma wrap32_range t : INT_MIN <= wrap32 t <= INT_MAX.
Proof.
  unfold INT_MIN, INT_MAX, wrap32.
  pose proof (Z.mod_pos_bound (t + 2 ^ 31) (2 ^ 32) ltac:(lia)). lia.
Qed.

Lemma doubleToInt32_wrap s m e :
  doubleToInt32 (S754_finite s m e) = wrap32 (truncate s m e).
Proof.
  unfold doubleToInt32.
  destruct (Z.leb_spec INT_MIN (truncate s m e));
    destruct (Z.leb_spec (truncate s m e) INT_MAX); cbn [andb]; try done.
  by rewrite wrap32_in_range.
Qed.

Lemma doubleToInt32_in_range s m e :
  INT_MIN <= truncate s m e <= INT_MAX ->
  doubleToInt32 (S754_finite s m e) = truncate s m e.
Proof. intros Ht. rewrite doubleToInt32_wrap. by apply wrap32_in_range. Qed.

Lemma double_value_pos m e : (0 < double_value false m e)%Q.
Proof.
  unfold double_value. destruct (Z.leb_spec 0 e).
  - change 0%Q with (inject_Z 0). rewrite <- Zlt_Qlt.
    apply Z.mul_pos_pos; [lia|]. by apply Z.pow_pos_nonneg.
  - unfold Qlt. cbn. lia.
Qed.

(** The magnitude of [truncate] is the floor of the magnitude of the
    double. *)
Lemma truncate_magnitude m e :
  (inject_Z (truncate false m e) <= double_value false m e)%Q /\
  (double_value false m e < inject_Z (truncate false m e + 1))%Q /\
  0 <= truncate false m e.
Proof.
  unfold truncate, double_value. destruct (Z.leb_spec 0 e) as [He|He].
  - rewrite Z.shiftl_mul_pow2 by done.
    split; [apply Qle_refl|]. split.
    + rewrite <- Zlt_Qlt. lia.
    + apply Z.mul_nonneg_nonneg; [lia|]. apply Z.pow_nonneg. lia.
  - rewrite Z.shiftr_div_pow2 by lia.
    assert (Hd : 0 < 2 ^ (- e)) by (apply Z.pow_pos_nonneg; lia).
    pose proof (Z.div_mod (Z.pos m) (2 ^ (- e)) ltac:(lia)) as Hdm.
    pose proof (Z.mod_pos_bound (Z.pos m) (2 ^ (- e)) Hd) as Hmod.
    unfold Qle, Qlt. cbn [Qnum Qden inject_Z].
    rewrite pow2_to_pos by lia.
    split; [nia|]. split; [nia|].
    apply Z.div_pos; lia.
Qed.

Lemma truncate_sign s m e :
  truncate s m e = if s then - truncate false m e else truncate false m e.
Proof. unfold truncate. by destruct s. Qed.

Lemma double_value_sign s m e :
  double_value s m e
    = if s then Qopp (double_value false m e) else double_value false m e.
Proof. unfold double_value. by destruct s. Qed.

(** [truncate] rounds toward zero. *)
Lemma truncate_toward_zero s m e :
  (s = false ->
     (inject_Z (truncate s m e) <= double_value s m e)%Q /\
     (double_value s m e < inject_Z (truncate s m e + 1))%Q /\
     0 <= truncate s m e) /\
  (s = true ->
     (inject_Z (truncate s m e - 1) < double_value s m e)%Q /\
     (double_value s m e <= inject_Z (truncate s m e))%Q /\
     truncate s m e <= 0).
Proof.
  destruct (truncate_magnitude m e) as (Hlo & Hhi & Hpos).
  split; intros ->.
  - done.
  - rewrite truncate_sign, double_value_sign.
    replace (- truncate false m e - 1) with (- (truncate false m e + 1)) by lia.
    rewrite !inject_Z_opp.
    split; [by apply Qopp_lt_compat|]. split; [by apply Qopp_le_compat|lia].
Qed.

Lemma doubleToInt32_nonpositive s m e :
  (inject_Z (INT_MIN - 1) < double_value s m e)%Q ->
  (double_value s m e <= 0)%Q ->
  doubleToInt32 (S754_finite s m e) <= 0.
Proof.
  intros Hlo Hle. destruct s.
  - destruct (proj2 (truncate_toward_zero true m e) eq_refl) as (_ & Hhi & Hneg).
    pose proof (Qlt_le_trans _ _ _ Hlo Hhi) as Hlt. rewrite <- Zlt_Qlt in Hlt.
    rewrite doubleToInt32_in_range; [done|]. unfold INT_MAX. lia.
  - pose proof (double_value_pos m e) as Hpos.
    exfalso. apply (Qlt_irrefl 0). by eapply Qlt_le_trans.
Qed.

Lemma doubleToInt32_integral s m e n :
  (double_value s m e == inject_Z n)%Q ->
  INT_MIN <= n <= INT_MAX ->
  doubleToInt32 (S754_finite s m e) = n.
Proof.
  intros Hq Hn.
  assert (Ht : truncate s m e = n).
  { destruct s.
    - destruct (proj2 (truncate_toward_zero true m e) eq_refl) as (Hlo & Hhi & _).
      rewrite Hq in Hlo, Hhi. rewrite <- Zlt_Qlt in Hlo. rewrite <- Zle_Qle in Hhi. lia.
    - destruct (proj1 (truncate_toward_zero false m e) eq_refl) as (Hlo & Hhi & _).
      rewrite Hq in Hlo, Hhi. rewrite <- Zlt_Qlt in Hhi. rewrite <- Zle_Qle in Hlo. lia. }
  rewrite doubleToInt32_in_range; rewrite Ht; done.
Qed.

Lemma toInt32_double_5_9 : toInt32 (VDouble double_5_9) = 5.
Proof. reflexivity. Qed.

Lemma toInt32_double_1_9 : toInt32 (VDouble double_1_9) = 1.
Proof. reflexivity. Qed.

(** The two sample doubles lie within 2^-50 of 5.9 and 1.9. *)
Lemma double_5_9_value :
  ((59 # 10) - (1 # 1125899906842624) < double_value false 6642809450371482 (-50))%Q /\
  (double_value false 6642809450371482 (-50) < (59 # 10) + (1 # 1125899906842624))%Q.
Proof. split; reflexivity. Qed.

Lemma double_1_9_value :
  ((19 # 10) - (1 # 1125899906842624) < double_value false 8556839292003942 (-52))%Q /\
  (double_value false 8556839292003942 (-52) < (19 # 10) + (1 # 1125899906842624))%Q.
Proof. split; reflexivity. Qed.

Lemma setTimeout_coerces registered cb v rest d :
  isNumber v = true ->
  setTimeout registered (VFunction cb :: v :: rest) d
    = setTimeout registered (VFunction cb :: VInteger (toInt32 v) :: rest) d.
Proof.
  intros Hn. unfold setTimeout. rewrite !argc_two. cbn [arg nth asFunctionObject].
  by rewrite Hn.
Qed.

Lemma setInterval_coerces registered cb v rest d :
  isNumber v = true ->
  setInterval registered (VFunction cb :: v :: rest) d
    = setInterval registered (VFunction cb :: VInteger (toInt32 v) :: rest) d.
Proof.
  intros Hn. unfold setInterval. rewrite !argc_two. cbn [arg nth asFunctionObject].
  by rewrite Hn.
Qed.

Lemma clearTimeout_coerces v rest d :
  isNumber v = true ->
  clearTimeout (v :: rest) d = clearTimeout (VInteger (toInt32 v) :: rest) d.
Proof.
  intros Hn. unfold clearTimeout. rewrite !argc_one. cbn [arg nth]. by rewrite Hn.
Qed.

Lemma clearInterval_coerces v rest d :
  isNumber v = true ->
  clearInterval (v :: rest) d = clearInterval (VInteger (toInt32 v) :: rest) d.
Proof.
  intros Hn. unfold clearInterval. rewrite !argc_one. cbn [arg nth]. by rewrite Hn.
Qed.

(** C9. The four timer operations use a numeric argument through
    [toInt32] only, and each acts on the integer [toInt32] makes of it:
    [setTimeout] and [setInterval] start the host timer with that integer
    as the delay (1 when it is not positive) and record the callback;
    [clearTimeout] looks that integer up in the one-shot table, removes the
    entry and kills the host timer of that identifier, and does nothing
    when it is not there; [clearInterval] applies its test of the repeating
    table and its [killTimer] to that integer.  On a finite double the
    integer is the double with its fraction dropped, rounded toward zero
    (and reduced to 32 bits when it does not fit).  So [setTimeout(cb, 5.9)]
    and [setInterval(cb, 5.9)] start a timer of delay 5, [clearTimeout(1.9)]
    clears timer 1 and [clearInterval(1.9)] acts on timer 1. *)
Theorem numeric_arguments_truncated :
  (forall registered cb v rest d, isNumber v = true ->
     setTimeout registered (VFunction cb :: v :: rest) d
       = setTimeout registered (VFunction cb :: VInteger (toInt32 v) :: rest) d /\
     setInterval registered (VFunction cb :: v :: rest) d
       = setInterval registered (VFunction cb :: VInteger (toInt32 v) :: rest) d) /\
  (forall v rest d, isNumber v = true ->
     clearTimeout (v :: rest) d = clearTimeout (VInteger (toInt32 v) :: rest) d /\
     clearInterval (v :: rest) d = clearInterval (VInteger (toInt32 v) :: rest) d) /\
  (forall registered cb v rest d, isNumber v = true -> registered <> 0 ->
     let t := setTimeout registered (VFunction cb :: v :: rest) d in
     let i := setInterval registered (VFunction cb :: v :: rest) d in
     (t.1 = Return (VInteger registered) /\
      m_timeoutCallbacks t.2 !! registered = Some cb /\
      runningTimers t.2 !! registered
        = Some (mkTimerInfo (if toInt32 v <=? 0 then 1 else toInt32 v) PreciseTimer)) /\
     (i.1 = Return (VInteger registered) /\
      m_intervalCallbacks i.2 !! registered = Some cb /\
      runningTimers i.2 !! registered
        = Some (mkTimerInfo (if toInt32 v <=? 0 then 1 else toInt32 v) PreciseTimer))) /\
  (forall v rest d, isNumber v = true -> runningTimers d !! 0 = None ->
     let t := clearTimeout (v :: rest) d in
     let i := clearInterval (v :: rest) d in
     (is_Some (m_timeoutCallbacks d !! toInt32 v) ->
        m_timeoutCallbacks t.2 = delete (toInt32 v) (m_timeoutCallbacks d) /\
        runningTimers t.2 = delete (toInt32 v) (runningTimers d)) /\
     (m_timeoutCallbacks d !! toInt32 v = None -> t.2 = d) /\
     (is_Some (m_intervalCallbacks d !! toInt32 v) -> i.2 = d) /\
     (m_intervalCallbacks d !! toInt32 v = None ->
        runningTimers i.2 = delete (toInt32 v) (runningTimers d) /\
        m_intervalCallbacks i.2 = m_intervalCallbacks d /\
        m_timeoutCallbacks i.2 = m_timeoutCallbacks d)) /\
  (forall s m e,
     let t := truncate s m e in
     let x := double_value s m e in
     toInt32 (VDouble (S754_finite s m e)) = wrap32 t /\
     (INT_MIN <= t <= INT_MAX -> toInt32 (VDouble (S754_finite s m e)) = t) /\
     (s = false -> (inject_Z t <= x)%Q /\ (x < inject_Z (t + 1))%Q /\ 0 <= t) /\
     (s = true -> (inject_Z (t - 1) < x)%Q /\ (x <= inject_Z t)%Q /\ t <= 0)) /\
  (forall registered cb d, registered <> 0 ->
     runningTimers (setTimeout registered [VFunction cb; VDouble double_5_9] d).2
       !! registered = Some (mkTimerInfo 5 PreciseTimer) /\
     runningTimers (setInterval registered [VFunction cb; VDouble double_5_9] d).2
       !! registered = Some (mkTimerInfo 5 PreciseTimer)) /\
  (forall cb d, runningTimers d !! 0 = None ->
     m_timeoutCallbacks d !! 1 = Some cb ->
     let d' := (clearTimeout [VDouble double_1_9] d).2 in
     m_timeoutCallbacks d' = delete 1 (m_timeoutCallbacks d) /\
     runningTimers d' = delete 1 (runningTimers d)) /\
  (forall d, runningTimers d !! 0 = None ->
     m_intervalCallbacks d !! 1 = None ->
     runningTimers (clearInterval [VDouble double_1_9] d).2
       = delete 1 (runningTimers d)).
Proof.
  split; [|split; [|split; [|split; [|split; [|split; [|split]]]]]].
  - intros. split; [by apply setTimeout_coerces|by apply setInterval_coerces].
  - intros. split; [by apply clearTimeout_coerces|by apply clearInterval_coerces].
  - intros registered cb v rest d Hn Hr t i. subst t i.
    rewrite setTimeout_started, setInterval_started by done.
    cbn [fst snd m_timeoutCallbacks m_intervalCallbacks runningTimers].
    rewrite !lookup_insert_eq. by repeat split.
  - intros v rest d Hn H0 t i. subst t i. split; [|split; [|split]].
    + intros [cb Hcb]. by rewrite (clearTimeout_registered _ _ _ cb).
    + intros Hnone. by rewrite clearTimeout_unknown.
    + intros [cb Hcb]. by rewrite (clearInterval_registered _ _ _ cb).
    + intros Hnone. by rewrite clearInterval_unknown.
  - intros s m e t x. subst t x. cbn [toInt32].
    split; [apply doubleToInt32_wrap|].
    split; [apply doubleToInt32_in_range|].
    apply truncate_toward_zero.
  - intros registered cb d Hr.
    rewrite setTimeout_started, setInterval_started by done.
    cbn [snd runningTimers]. rewrite !lookup_insert_eq.
    by rewrite toInt32_double_5_9.
  - intros cb d H0 Hcb d'. subst d'.
    rewrite (clearTimeout_registered _ _ _ cb) by done.
    by rewrite toInt32_double_1_9.
  - intros d H0 Hnone.
    rewrite clearInterval_unknown by done. by rewrite toInt32_double_1_9.
Qed.

Lemma numeric_arguments_truncated_witness :
  runningTimers (setTimeout 4 [VFunction f1; VDouble double_5_9] fresh).2 !! 4
    = Some (mkTimerInfo 5 PreciseTimer) /\
  runningTimers (setInterval 4 [VFunction f1; VDouble double_5_9] fresh).2 !! 4
    = Some (mkTimerInfo 5 PreciseTimer) /\
  clearTimeout [VDouble double_1_9] fresh = clearTimeout [VInteger 1] fresh /\
  toInt32 (VDouble (S754_finite true 6642809450371482 (-50))) = -5 /\
  runningTimers withHostTimers12 !! 0 = None /\
  m_intervalCallbacks withHostTimers12 !! 1 = None /\
  runningTimers (clearInterval [VDouble double_1_9] withHostTimers12).2
    = {[ 2 := mkTimerInfo 100 PreciseTimer ]}.
Proof.
  destruct numeric_arguments_truncated
    as (_ & Hclear & _ & _ & Htrunc & Hset & _ & Hkill).
  split; [apply Hset; lia|]. split; [apply Hset; lia|]. split; [|split].
  - exact (proj1 (Hclear (VDouble double_1_9) [] fresh eq_refl)).
  - destruct (Htrunc true 6642809450371482%positive (-50)) as (_ & Hin & _).
    rewrite Hin; [reflexivity|]. vm_compute. split; discriminate.
  - split; [reflexivity|]. split; [reflexivity|].
    rewrite (Hkill withHostTimers12 eq_refl eq_refl). reflexivity.
Defined.

(** ** Clamping of the delay *)

Lemma toInt32_nonpositive v q :
  represents v q ->
  (inject_Z (INT_MIN - 1) < q)%Q -> (q <= 0)%Q ->
  isNumber v = true /\ toInt32 v <= 0.
Proof.
  destruct v as [| | |i|[sg|sg| |s m e]| | |]; cbn [represents]; try done.
  - intros Hq _ Hle. split; [done|]. rewrite Hq in Hle.
    change 0%Q with (inject_Z 0) in Hle. by rewrite <- Zle_Qle in Hle.
  - intros Hq Hlo Hle. split; [done|]. rewrite Hq in Hlo, Hle.
    by apply doubleToInt32_nonpositive.
Qed.

Lemma toInt32_integral v q n :
  represents v q ->
  (q == inject_Z n)%Q -> INT_MIN <= n <= INT_MAX ->
  isNumber v = true /\ toInt32 v = n.
Proof.
  destruct v as [| | |i|[sg|sg| |s m e]| | |]; cbn [represents]; try done.
  - intros Hq Hn _. split; [done|]. rewrite Hq in Hn.
    by apply inject_Z_injective.
  - intros Hq Hn _. split; [done|]. rewrite Hq in Hn.
    change 0%Q with (inject_Z 0) in Hn. by apply inject_Z_injective.
  - intros Hq Hn Hr. split; [done|]. rewrite Hq in Hn.
    by apply doubleToInt32_integral.
Qed.

(** C6, as the code has it.  For a finite numeric [delayMs] with
    [-2^31 - 1 < delayMs <= 0], [setTimeout] and [setInterval] start the
    host timer with delay exactly 1; a positive integral [delayMs] up to
    [INT_MAX = 2^31 - 1] is the delay of the host timer, unchanged. *)
Theorem delay_clamped_within_int_range
    (registered : Z) (cb : FunctionObject) (v : Value) (q : Q)
    (rest : list Value) (d : EnginePrivate) :
  registered <> 0 ->
  represents v q ->
  let t := setTimeout registered (VFunction cb :: v :: rest) d in
  let i := setInterval registered (VFunction cb :: v :: rest) d in
  ((inject_Z (INT_MIN - 1) < q)%Q -> (q <= 0)%Q ->
     runningTimers t.2 !! registered = Some (mkTimerInfo 1 PreciseTimer) /\
     runningTimers i.2 !! registered = Some (mkTimerInfo 1 PreciseTimer)) /\
  (forall n, 0 < n <= INT_MAX -> (q == inject_Z n)%Q ->
     runningTimers t.2 !! registered = Some (mkTimerInfo n PreciseTimer) /\
     runningTimers i.2 !! registered = Some (mkTimerInfo n PreciseTimer)).
Proof.
  intros Hr Hv t i. subst t i. split.
  - intros Hlo Hle.
    destruct (toInt32_nonpositive v q Hv Hlo Hle) as [Hn Hi].
    rewrite setTimeout_started, setInterval_started by done.
    cbn [snd runningTimers]. rewrite !lookup_insert_eq.
    unfold clamp. destruct (Z.leb_spec (toInt32 v) 0); [done|lia].
  - intros n Hn Hq.
    destruct (toInt32_integral v q n Hv Hq) as [Hnum Hi].
    { unfold INT_MIN. lia. }
    rewrite setTimeout_started, setInterval_started by done.
    cbn [snd runningTimers]. rewrite !lookup_insert_eq.
    unfold clamp. rewrite Hi. destruct (Z.leb_spec n 0); [lia|done].
Qed.

Lemma delay_clamped_within_int_range_witness :
  represents (VDouble (S754_finite true 5629499534213120 (-50))) (inject_Z (-5)) /\
  runningTimers
    (setTimeout 4 [VFunction f1; VDouble (S754_finite true 5629499534213120 (-50))]
                fresh).2 !! 4
    = Some (mkTimerInfo 1 PreciseTimer) /\
  represents (VInteger 250) (inject_Z 250) /\
  runningTimers (setInterval 4 [VFunction f1; VInteger 250] fresh).2 !! 4
    = Some (mkTimerInfo 250 PreciseTimer).
Proof.
  assert (H5 : represents (VDouble (S754_finite true 5629499534213120 (-50)))
                          (inject_Z (-5))) by reflexivity.
  assert (H250 : represents (VInteger 250) (inject_Z 250)) by reflexivity.
  split; [exact H5|]. split; [|split; [exact H250|]].
  - destruct (delay_clamped_within_int_range 4 f1 _ _ [] fresh ltac:(lia) H5)
      as [Hclamp _].
    apply Hclamp; [reflexivity|discriminate].
  - destruct (delay_clamped_within_int_range 4 f1 _ _ [] fresh ltac:(lia) H250)
      as [_ Hpass].
    apply (Hpass 250); [unfold INT_MAX; lia|reflexivity].
Defined.

(** C6 as the claim words it fails outside the [int] range: the delay
    -2147483649 is a number below zero, yet the timer is started with
    delay 2147483647, not 1; and the positive integral delay 2147483648 is
    not passed through, the timer is started with delay 1. *)
Lemma delay_outside_int_range :
  (represents (VDouble double_below_INT_MIN) (inject_Z (-2147483649)) /\
   double_le0 double_below_INT_MIN = true /\
   runningTimers
     (setTimeout 4 [VFunction f1; VDouble double_below_INT_MIN] fresh).2 !! 4
     = Some (mkTimerInfo 2147483647 PreciseTimer)) /\
  (represents (VDouble double_above_INT_MAX) (inject_Z 2147483648) /\
   runningTimers
     (setTimeout 4 [VFunction f1; VDouble double_above_INT_MAX] fresh).2 !! 4
     = Some (mkTimerInfo 1 PreciseTimer)).
Proof.
  split.
  - split; [reflexivity|]. split; [reflexivity|].
    rewrite setTimeout_started by (reflexivity || lia).
    cbn [snd runningTimers]. by rewrite lookup_insert_eq.
  - split; [reflexivity|].
    rewrite setTimeout_started by (reflexivity || lia).
    cbn [snd runningTimers]. by rewrite lookup_insert_eq.
Qed.

(** * Further properties *)

(** ** Outcomes of the timer operations *)

Lemma setTimeout_outcome registered callData d :
  (exists e, setTimeout registered callData d = (Throw e, d)) \/
  (exists cb v rest,
     callData = VFunction cb :: v :: rest /\ isNumber v = true /\ registered <> 0).
Proof.
  destruct callData as [|a0 [|a1 rest]].
  - left. by eexists.
  - left. by eexists.
  - destruct (asFunctionObject a0) as [cb|] eqn:Hf.
    + destruct a0; try discriminate Hf. injection Hf as ->.
      destruct (isNumber a1) eqn:Hn.
      * destruct (Z.eq_dec registered 0) as [->|Hr].
        -- left. eexists. by apply setTimeout_refused.
        -- right. by exists cb, a1, rest.
      * left. eexists. unfold setTimeout. rewrite argc_two.
        cbn [arg nth asFunctionObject]. by rewrite Hn.
    + left. eexists. unfold setTimeout. rewrite argc_two.
      cbn [arg nth]. by rewrite Hf.
Qed.

Lemma setInterval_outcome registered callData d :
  (exists e, setInterval registered callData d = (Throw e, d)) \/
  (exists cb v rest,
     callData = VFunction cb :: v :: rest /\ isNumber v = true /\ registered <> 0).
Proof.
  destruct callData as [|a0 [|a1 rest]].
  - left. by eexists.
  - left. by eexists.
  - destruct (asFunctionObject a0) as [cb|] eqn:Hf.
    + destruct a0; try discriminate Hf. injection Hf as ->.
      destruct (isNumber a1) eqn:Hn.
      * destruct (Z.eq_dec registered 0) as [->|Hr].
        -- left. eexists. by apply setInterval_refused.
        -- right. by exists cb, a1, rest.
      * left. eexists. unfold setInterval. rewrite argc_two.
        cbn [arg nth asFunctionObject]. by rewrite Hn.
    + left. eexists. unfold setInterval. rewrite argc_two.
      cbn [arg nth]. by rewrite Hf.
Qed.

Lemma clearTimeout_numeric v rest d :
  isNumber v = true ->
  clearTimeout (v :: rest) d =
    (Return VUndefined,
     if contains (toInt32 v) (m_timeoutCallbacks d)
     then with_timeoutCallbacks (delete (toInt32 v) (m_timeoutCallbacks d))
            (killTimer (toInt32 v) d)
     else d).
Proof.
  intros Hn. unfold clearTimeout. rewrite argc_one. cbn [arg nth].
  rewrite Hn. cbn [negb]. by rewrite killTimer_timeoutCallbacks.
Qed.

Lemma clearInterval_numeric v rest d :
  isNumber v = true ->
  clearInterval (v :: rest) d =
    (Return VUndefined,
     if contains (toInt32 v) (m_intervalCallbacks d)
     then d
     else with_intervalCallbacks (delete (toInt32 v) (m_intervalCallbacks d))
            (killTimer (toInt32 v) d)).
Proof.
  intros Hn. unfold clearInterval. rewrite argc_one. cbn [arg nth].
  rewrite Hn. cbn [negb]. rewrite killTimer_intervalCallbacks.
  by destruct (contains (toInt32 v) (m_intervalCallbacks d)).
Qed.

Lemma clearTimeout_outcome callData d :
  (exists e, clearTimeout callData d = (Throw e, d)) \/
  (exists v rest, callData = v :: rest /\ isNumber v = true).
Proof.
  destruct callData as [|v rest].
  - left. by eexists.
  - destruct (isNumber v) eqn:Hn.
    + right. by exists v, rest.
    + left. eexists. by apply clearTimeout_not_a_number.
Qed.

Lemma clearInterval_outcome callData d :
  (exists e, clearInterval callData d = (Throw e, d)) \/
  (exists v rest, callData = v :: rest /\ isNumber v = true).
Proof.
  destruct callData as [|v rest].
  - left. by eexists.
  - destruct (isNumber v) eqn:Hn.
    + right. by exists v, rest.
    + left. eexists. by apply clearInterval_not_a_number.
Qed.

Lemma nextTick_outcome callData d :
  (exists e, nextTick callData d = (Throw e, d)) \/
  (exists cb rest, callData = VFunction cb :: rest).
Proof.
  destruct callData as [|a0 rest].
  - left. by eexists.
  - destruct (asFunctionObject a0) as [cb|] eqn:Hf.
    + destruct a0; try discriminate Hf. injection Hf as ->. right. by eexists _, _.
    + left. eexists. unfold nextTick.
      replace (argc (a0 :: rest) =? 0) with false.
      * cbn [arg nth]. by rewrite Hf.
      * symmetry. apply Z.eqb_neq. unfold argc. simpl length. lia.
Qed.

(** ** The timer tables stay consistent with the host *)

Lemma consistent_started_timeout registered cb info d :
  consistent d -> registered <> 0 -> registered ∉ dom (runningTimers d) ->
  consistent
    (mkEnginePrivate (<[registered := cb]> (m_timeoutCallbacks d))
       (m_intervalCallbacks d) (m_cachedModules d) (globalObject d)
       (<[registered := info]> (runningTimers d)) (postEventList d)).
Proof.
  intros (H0 & Ht & Hi & Hdisj) Hr Hfresh. unfold consistent. cbn.
  rewrite lookup_insert_ne by done. rewrite !dom_insert_L.
  split; [done|]. set_solver.
Qed.

Lemma consistent_started_interval registered cb info d :
  consistent d -> registered <> 0 -> registered ∉ dom (runningTimers d) ->
  consistent
    (mkEnginePrivate (m_timeoutCallbacks d)
       (<[registered := cb]> (m_intervalCallbacks d)) (m_cachedModules d)
       (globalObject d)
       (<[registered := info]> (runningTimers d)) (postEventList d)).
Proof.
  intros (H0 & Ht & Hi & Hdisj) Hr Hfresh. unfold consistent. cbn.
  rewrite lookup_insert_ne by done. rewrite !dom_insert_L.
  split; [done|]. set_solver.
Qed.

Lemma consistent_fired timerId d :
  consistent d ->
  contains timerId (m_timeoutCallbacks d) = true ->
  consistent
    (with_timeoutCallbacks (delete timerId (m_timeoutCallbacks d))
       (killTimer timerId d)).
Proof.
  intros (H0 & Ht & Hi & Hdisj) Hin. unfold consistent. cbn.
  apply contains_true, elem_of_dom in Hin.
  rewrite killTimer_intervalCallbacks, killTimer_runningTimers by done.
  assert (Hne : timerId <> 0).
  { intros ->. apply Ht, elem_of_dom in Hin. rewrite H0 in Hin. by destruct Hin. }
  rewrite lookup_delete_ne by done. rewrite !dom_delete_L.
  split; [done|]. set_solver.
Qed.

Lemma setTimeout_consistent registered callData d :
  consistent d -> registered ∉ dom (runningTimers d) ->
  consistent (setTimeout registered callData d).2.
Proof.
  intros Hc Hfresh.
  destruct (setTimeout_outcome registered callData d)
    as [[e ->]|(cb & v & rest & -> & Hn & Hr)]; [done|].
  rewrite setTimeout_started by done. by apply consistent_started_timeout.
Qed.

Lemma setInterval_consistent registered callData d :
  consistent d -> registered ∉ dom (runningTimers d) ->
  consistent (setInterval registered callData d).2.
Proof.
  intros Hc Hfresh.
  destruct (setInterval_outcome registered callData d)
    as [[e ->]|(cb & v & rest & -> & Hn & Hr)]; [done|].
  rewrite setInterval_started by done. by apply consistent_started_interval.
Qed.

Lemma clearTimeout_consistent callData d :
  consistent d -> consistent (clearTimeout callData d).2.
Proof.
  intros Hc.
  destruct (clearTimeout_outcome callData d) as [[e ->]|(v & rest & -> & Hn)]; [done|].
  rewrite clearTimeout_numeric by done. cbn [snd].
  destruct (contains _ _) eqn:Hin; [|done]. by apply consistent_fired.
Qed.

Lemma clearInterval_consistent callData d :
  consistent d ->
  toInt32 (arg callData 0) ∉ dom (m_timeoutCallbacks d) ->
  consistent (clearInterval callData d).2.
Proof.
  intros Hc Hnot.
  destruct (clearInterval_outcome callData d) as [[e ->]|(v & rest & -> & Hn)]; [done|].
  rewrite clearInterval_numeric by done. cbn [snd]. cbn [arg nth] in Hnot.
  destruct (contains _ _) eqn:Hin; [done|]. apply contains_false in Hin.
  destruct Hc as (H0 & Ht & Hi & Hdisj). unfold consistent. cbn.
  rewrite killTimer_timeoutCallbacks, killTimer_runningTimers by done.
  rewrite (delete_id (m_intervalCallbacks d)) by done.
  destruct (decide (toInt32 v = 0)) as [Hz|Hne].
  - rewrite Hz in *. rewrite (delete_id (runningTimers d)) by done. done.
  - rewrite lookup_delete_ne by done. rewrite dom_delete_L.
    apply not_elem_of_dom in Hin. split; [done|]. set_solver.
Qed.

Lemma nextTick_consistent callData d :
  consistent d -> consistent (nextTick callData d).2.
Proof.
  intros Hc.
  destruct (nextTick_outcome callData d) as [[e ->]|(cb & rest & ->)]; [done|].
  by rewrite nextTick_posts.
Qed.

(** X1. The script-facing operations keep the timer tables consistent with
    the host (0 is no timer, every recorded callback has a running host
    timer, the two tables share no identifier): [setTimeout] and
    [setInterval] when the host hands out an identifier that is not
    running already, [clearTimeout] and [nextTick] always, whatever their
    arguments, and [clearInterval] when its argument is not the identifier
    of a pending one-shot timer. *)
Theorem operations_keep_consistent (d : EnginePrivate) :
  consistent d ->
  (forall registered callData, registered ∉ dom (runningTimers d) ->
     consistent (setTimeout registered callData d).2 /\
     consistent (setInterval registered callData d).2) /\
  (forall callData, consistent (clearTimeout callData d).2) /\
  (forall callData, consistent (nextTick callData d).2) /\
  (forall callData, toInt32 (arg callData 0) ∉ dom (m_timeoutCallbacks d) ->
     consistent (clearInterval callData d).2).
Proof.
  intros Hc. split; [|split; [|split]].
  - intros registered callData Hfresh.
    split; [by apply setTimeout_consistent|by apply setInterval_consistent].
  - intros callData. by apply clearTimeout_consistent.
  - intros callData. by apply nextTick_consistent.
  - intros callData Hnot. by apply clearInterval_consistent.
Qed.

Lemma consistent_fresh : consistent fresh.
Proof. unfold consistent, fresh. cbn. split; [done|]. set_solver. Qed.

Lemma consistent_withTimeout3 : consistent withTimeout3.
Proof.
  unfold consistent, withTimeout3. cbn. split; [done|].
  rewrite !dom_singleton_L, dom_empty_L. set_solver.
Qed.

Lemma operations_keep_consistent_witness :
  consistent withTimeout3 /\
  consistent (setInterval 7 [VFunction f2; VInteger 50] withTimeout3).2 /\
  consistent (clearTimeout [VInteger 3] withTimeout3).2.
Proof.
  split; [exact consistent_withTimeout3|].
  destruct (operations_keep_consistent withTimeout3 consistent_withTimeout3)
    as (Hset & Hclear & _).
  split; [|apply Hclear].
  apply Hset. apply not_elem_of_dom. reflexivity.
Defined.

(** X2. Timer dispatch keeps the tables consistent with the host whenever
    the script functions it runs do. *)
Theorem timerEvent_keeps_consistent (call : Call) (timerId : Z) (d : EnginePrivate) :
  (forall cb callData e, consistent e -> consistent (call cb callData e)) ->
  consistent d ->
  consistent (timerEvent call timerId d).
Proof.
  intros Hcall Hc. unfold timerEvent, take, value.
  rewrite killTimer_timeoutCallbacks.
  destruct (contains timerId (m_timeoutCallbacks d)) eqn:Ht.
  - pose proof Ht as [cb Hcb]%contains_true. rewrite Hcb.
    apply Hcall. by apply consistent_fired.
  - destruct (contains timerId (m_intervalCallbacks d)) eqn:Hi; [|done].
    apply contains_true in Hi as [cb Hcb]. rewrite Hcb. by apply Hcall.
Qed.

Lemma timerEvent_keeps_consistent_witness :
  consistent withTimeout3 /\ consistent (timerEvent deferAgain 3 withTimeout3).
Proof.
  split; [exact consistent_withTimeout3|].
  apply timerEvent_keeps_consistent.
  - intros cb callData e He. unfold deferAgain. by apply nextTick_consistent.
  - exact consistent_withTimeout3.
Defined.

(** ** Setting, clearing and firing compose *)

Lemma engine_eta d :
  mkEnginePrivate (m_timeoutCallbacks d) (m_intervalCallbacks d) (m_cachedModules d)
    (globalObject d) (runningTimers d) (postEventList d) = d.
Proof. by destruct d. Qed.

(** X3. Clearing undoes setting: when [setTimeout] succeeds with an
    identifier that was neither running nor recorded before, it returns
    that identifier, and [clearTimeout] of the returned value gives back
    the engine exactly as it was before the timer was set. *)
Theorem setTimeout_clearTimeout_round_trip
    (registered : Z) (cb : FunctionObject) (v : Value) (rest rest' : list Value)
    (d : EnginePrivate) :
  isNumber v = true ->
  registered <> 0 ->
  runningTimers d !! 0 = None ->
  runningTimers d !! registered = None ->
  m_timeoutCallbacks d !! registered = None ->
  exists id d1,
    setTimeout registered (VFunction cb :: v :: rest) d = (Return id, d1) /\
    m_timeoutCallbacks d1 !! registered = Some cb /\
    clearTimeout (id :: rest') d1 = (Return VUndefined, d).
Proof.
  intros Hn Hr H0 Hrun Htab. eexists _, _.
  split; [by apply setTimeout_started|].
  split; [cbn; apply lookup_insert_eq|].
  rewrite (clearTimeout_registered _ _ _ cb).
  - cbn. rewrite !delete_insert_id by done. by rewrite engine_eta.
  - done.
  - cbn. by rewrite lookup_insert_ne.
  - cbn. apply lookup_insert_eq.
Qed.

Lemma setTimeout_clearTimeout_round_trip_witness :
  exists id d1,
    setTimeout 7 [VFunction f2; VInteger 50] withTimeout3 = (Return id, d1) /\
    m_timeoutCallbacks d1 !! 7 = Some f2 /\
    clearTimeout [id] d1 = (Return VUndefined, withTimeout3).
Proof.
  apply (setTimeout_clearTimeout_round_trip 7 f2 (VInteger 50) [] [] withTimeout3);
    (reflexivity || lia).
Defined.

(** X4. [clearTimeout] is idempotent: on any arguments and any engine, a
    second call with the same arguments returns what the first returned
    and changes nothing more. *)
Theorem clearTimeout_idempotent (callData : list Value) (d : EnginePrivate) :
  clearTimeout callData (clearTimeout callData d).2 = clearTimeout callData d.
Proof.
  destruct (clearTimeout_outcome callData d) as [[e He]|(v & rest & -> & Hn)].
  - rewrite He. cbn [snd]. exact He.
  - rewrite !clearTimeout_numeric by done. cbn [snd].
    destruct (contains (toInt32 v) (m_timeoutCallbacks d)) eqn:Hin.
    + cbn [m_timeoutCallbacks with_timeoutCallbacks].
      by rewrite (proj2 (contains_false _ _) (lookup_delete_eq _ _)).
    + by rewrite Hin.
Qed.

(** X5. A cleared one-shot timer never fires: if the host still delivers a
    timer event for an identifier after [clearTimeout] of it, and the
    identifier is not a repeating timer, no callback is invoked and the
    engine stays as [clearTimeout] left it. *)
Theorem cleared_timeout_never_fires
    (call : Call) (v : Value) (rest : list Value) (d : EnginePrivate) :
  isNumber v = true ->
  m_intervalCallbacks d !! toInt32 v = None ->
  timerEvent call (toInt32 v) (clearTimeout (v :: rest) d).2
    = (clearTimeout (v :: rest) d).2.
Proof.
  intros Hn Hi. rewrite clearTimeout_numeric by done. cbn [snd].
  destruct (contains (toInt32 v) (m_timeoutCallbacks d)) eqn:Hin.
  - apply timerEvent_unknown; cbn.
    + apply lookup_delete_eq.
    + by rewrite killTimer_intervalCallbacks.
  - apply contains_false in Hin. by apply timerEvent_unknown.
Qed.

Lemma cleared_timeout_never_fires_witness :
  timerEvent probe 3 (clearTimeout [VInteger 3] withTimeout3).2 = fresh.
Proof.
  pose proof (cleared_timeout_never_fires probe (VInteger 3) [] withTimeout3
                eq_refl eq_refl) as Hquiet.
  change (toInt32 (VInteger 3)) with 3 in Hquiet. rewrite Hquiet.
  reflexivity.
Defined.

(** X6. Firing undoes setting before the callback runs: when a one-shot
    timer set on engine [d] under a new identifier fires, its callback is
    invoked on [d] itself, with the global object as receiver and no
    arguments. *)
Theorem setTimeout_then_fire
    (call : Call) (registered : Z) (cb : FunctionObject) (v : Value)
    (rest : list Value) (d : EnginePrivate) :
  isNumber v = true ->
  registered <> 0 ->
  runningTimers d !! 0 = None ->
  runningTimers d !! registered = None ->
  m_timeoutCallbacks d !! registered = None ->
  timerEvent call registered (setTimeout registered (VFunction cb :: v :: rest) d).2
    = call cb (plainCall d) d.
Proof.
  intros Hn Hr H0 Hrun Htab. rewrite setTimeout_started by done. cbn [snd].
  rewrite (timerEvent_timeout _ _ _ cb).
  - cbn. rewrite !delete_insert_id by done. by rewrite engine_eta.
  - cbn. by rewrite lookup_insert_ne.
  - cbn. apply lookup_insert_eq.
Qed.

Lemma setTimeout_then_fire_witness :
  timerEvent noteLast 7 (setTimeout 7 [VFunction f2; VInteger 50] withTimeout3).2
    = with_cachedModules {[ "last" := f2 ]} withTimeout3.
Proof.
  rewrite (setTimeout_then_fire noteLast 7 f2 (VInteger 50) [] withTimeout3);
    (reflexivity || lia).
Defined.

Lemma timerEvent_timeout_state call timerId d cb :
  m_timeoutCallbacks d !! timerId = Some cb ->
  timerEvent call timerId d =
    call cb (plainCall d)
      (with_timeoutCallbacks (delete timerId (m_timeoutCallbacks d))
         (killTimer timerId d)).
Proof.
  intros Hcb. unfold timerEvent, take, plainCall.
  rewrite (contains_Some _ _ _ Hcb), killTimer_timeoutCallbacks, Hcb.
  cbn [globalObject with_timeoutCallbacks]. by rewrite killTimer_globalObject.
Qed.

(** X7. A one-shot timer fires once: if the script functions set and clear
    no timers, then however many timer events the host delivers for the
    identifier of a one-shot timer, the callback is invoked by the first
    only. *)
Theorem timeout_fires_once
    (call : Call) (timerId : Z) (cb : FunctionObject) (n : nat) (d : EnginePrivate) :
  keepsTimers call ->
  m_timeoutCallbacks d !! timerId = Some cb ->
  m_intervalCallbacks d !! timerId = None ->
  Nat.iter (S n) (timerEvent call timerId) d = timerEvent call timerId d.
Proof.
  intros Hcall Hcb Hi. induction n as [|n IH]; [done|].
  rewrite Nat.iter_succ, IH.
  apply timerEvent_unknown; rewrite (timerEvent_timeout_state _ _ _ cb) by done.
  - rewrite (proj1 (Hcall _ _ _)). cbn. apply lookup_delete_eq.
  - rewrite (proj1 (proj2 (Hcall _ _ _))). cbn.
    by rewrite killTimer_intervalCallbacks.
Qed.

Lemma deferAgain_keepsTimers : keepsTimers deferAgain.
Proof. intros cb callData e. unfold deferAgain. by rewrite nextTick_posts. Qed.

Lemma timeout_fires_once_witness :
  postEventList (Nat.iter 3 (timerEvent deferAgain 3) withTimeout3) = [wakeUp f1].
Proof.
  rewrite (timeout_fires_once deferAgain 3 f1 2 withTimeout3 deferAgain_keepsTimers);
    reflexivity.
Defined.

(** X8. A repeating timer fires every time: if the script functions set
    and clear no timers, [n] timer events for the identifier of a
    repeating timer invoke its callback [n] times, each time with the
    global object as receiver and no arguments, and the registration is
    still in place afterwards. *)
Theorem interval_fires_every_time
    (call : Call) (timerId : Z) (cb : FunctionObject) (n : nat) (d : EnginePrivate) :
  keepsTimers call ->
  m_timeoutCallbacks d !! timerId = None ->
  m_intervalCallbacks d !! timerId = Some cb ->
  Nat.iter n (timerEvent call timerId) d = Nat.iter n (call cb (plainCall d)) d /\
  m_intervalCallbacks (Nat.iter n (timerEvent call timerId) d) !! timerId = Some cb.
Proof.
  intros Hcall Ht Hi.
  assert (Hinv : forall k,
            m_timeoutCallbacks (Nat.iter k (call cb (plainCall d)) d)
              = m_timeoutCallbacks d /\
            m_intervalCallbacks (Nat.iter k (call cb (plainCall d)) d)
              = m_intervalCallbacks d /\
            globalObject (Nat.iter k (call cb (plainCall d)) d) = globalObject d).
  { induction k as [|k (IHt & IHi & IHg)]; [done|]. rewrite Nat.iter_succ.
    destruct (Hcall cb (plainCall d) (Nat.iter k (call cb (plainCall d)) d))
      as (Ht' & Hi' & Hg').
    by rewrite Ht', Hi', Hg'. }
  assert (Heq : forall k,
            Nat.iter k (timerEvent call timerId) d
              = Nat.iter k (call cb (plainCall d)) d).
  { induction k as [|k IH]; [done|]. rewrite !Nat.iter_succ, IH.
    destruct (Hinv k) as (Ht' & Hi' & Hg').
    rewrite (timerEvent_interval _ _ _ cb) by (by rewrite ?Ht', ?Hi').
    unfold plainCall in *. by rewrite Hg'. }
  split; [apply Heq|].
  rewrite Heq. destruct (Hinv n) as (_ & Hi' & _). by rewrite Hi'.
Qed.

Lemma interval_fires_every_time_witness :
  postEventList (Nat.iter 2 (timerEvent deferAgain 7) withInterval7)
    = [wakeUp f1; wakeUp f1].
Proof.
  destruct (interval_fires_every_time deferAgain 7 f1 2 withInterval7
              deferAgain_keepsTimers eq_refl eq_refl) as [Heq _].
  rewrite Heq. reflexivity.
Defined.

(** ** Failures of the clearing operations *)

(** X9. [clearTimeout] and [clearInterval] fail in two ways only: without
    arguments they raise an error "missing arguments", with a first
    argument that is not a number a type error; a failed call leaves the
    engine as it was.  With a number first they return [undefined]. *)
Theorem clear_operations_failures (callData : list Value) (d : EnginePrivate) :
  let t := clearTimeout callData d in
  let i := clearInterval callData d in
  (callData = [] ->
     t = (Throw (Error "clearTimeout: missing arguments"), d) /\
     i = (Throw (Error "clearInterval: missing arguments"), d)) /\
  (forall v rest, callData = v :: rest -> isNumber v = false ->
     t = (Throw (TypeError "clearTimeout: timeout must be an integer (at the moment)"), d) /\
     i = (Throw (TypeError "clearInterval: timeout must be an integer (at the moment)"), d)) /\
  (forall v rest, callData = v :: rest -> isNumber v = true ->
     t.1 = Return VUndefined /\ i.1 = Return VUndefined) /\
  (forall e, t.1 = Throw e -> t.2 = d) /\
  (forall e, i.1 = Throw e -> i.2 = d).
Proof.
  intros t i. subst t i. split; [|split; [|split; [|split]]].
  - by intros ->.
  - intros v rest -> Hn.
    split; [by apply clearTimeout_not_a_number|by apply clearInterval_not_a_number].
  - intros v rest -> Hn.
    by rewrite clearTimeout_numeric, clearInterval_numeric.
  - intros e.
    destruct (clearTimeout_outcome callData d) as [[e' ->]|(v & rest & -> & Hn)]; [done|].
    by rewrite clearTimeout_numeric.
  - intros e.
    destruct (clearInterval_outcome callData d) as [[e' ->]|(v & rest & -> & Hn)]; [done|].
    by rewrite clearInterval_numeric.
Qed.

Lemma clear_operations_failures_witness :
  clearTimeout [] withTimeout3
    = (Throw (Error "clearTimeout: missing arguments"), withTimeout3) /\
  clearInterval [VString "7"] withInterval7
    = (Throw (TypeError "clearInterval: timeout must be an integer (at the moment)"),
       withInterval7).
Proof.
  split.
  - exact (proj1 (proj1 (clear_operations_failures [] withTimeout3) eq_refl)).
  - exact (proj2 (proj1 (proj2 (clear_operations_failures [VString "7"] withInterval7))
                    (VString "7") [] eq_refl eq_refl)).
Defined.

(** ** The delay the host is asked for *)

Lemma doubleToInt32_range x : INT_MIN <= doubleToInt32 x <= INT_MAX.
Proof.
  destruct x as [sg|sg| |s m e]; try (unfold INT_MIN, INT_MAX; cbn; lia).
  rewrite doubleToInt32_wrap. apply wrap32_range.
Qed.

Lemma clamp_range delay : delay <= INT_MAX -> 1 <= clamp delay <= INT_MAX.
Proof.
  unfold clamp, INT_MAX. intros Hd. destruct (Z.leb_spec delay 0); lia.
Qed.

(** X10. Whatever number is given as the delay (any double, NaN and the
    infinities included, or any [int]), a timer that is started is started
    with an interval between 1 and [INT_MAX]; and with valid arguments the
    scheduling error is raised exactly when the host hands out no timer. *)
Theorem scheduled_delay_in_range
    (registered : Z) (cb : FunctionObject) (v : Value) (rest : list Value)
    (d : EnginePrivate) :
  isNumber v = true ->
  (forall i, v = VInteger i -> INT_MIN <= i <= INT_MAX) ->
  let t := setTimeout registered (VFunction cb :: v :: rest) d in
  let i := setInterval registered (VFunction cb :: v :: rest) d in
  (t.1 = Throw (Error "setTimeout: cannot start timer") <-> registered = 0) /\
  (i.1 = Throw (Error "setInterval: cannot start timer") <-> registered = 0) /\
  (registered <> 0 ->
     exists ms, 1 <= ms <= INT_MAX /\
       runningTimers t.2 !! registered = Some (mkTimerInfo ms PreciseTimer) /\
       runningTimers i.2 !! registered = Some (mkTimerInfo ms PreciseTimer)).
Proof.
  intros Hn Hint t i. subst t i.
  assert (Hmax : toInt32 v <= INT_MAX).
  { destruct v as [| | |k|x| | |]; try discriminate Hn.
    - apply (Hint k eq_refl).
    - apply doubleToInt32_range. }
  destruct (Z.eq_dec registered 0) as [->|Hr].
  - rewrite setTimeout_refused, setInterval_refused by done. by repeat split.
  - rewrite setTimeout_started, setInterval_started by done.
    split; [by split|]. split; [by split|].
    intros _. exists (clamp (toInt32 v)).
    split; [by apply clamp_range|]. cbn. by rewrite !lookup_insert_eq.
Qed.

Lemma scheduled_delay_in_range_witness :
  exists ms, 1 <= ms <= INT_MAX /\
    runningTimers (setTimeout 4 [VFunction f1; VDouble S754_nan] fresh).2 !! 4
      = Some (mkTimerInfo ms PreciseTimer) /\
    runningTimers (setInterval 4 [VFunction f1; VDouble S754_nan] fresh).2 !! 4
      = Some (mkTimerInfo ms PreciseTimer).
Proof.
  apply (scheduled_delay_in_range 4 f1 (VDouble S754_nan) [] fresh eq_refl).
  - intros i Hi. discriminate Hi.
  - lia.
Defined.

(** ** Sequences of deferred callbacks *)




(** X12. Wake-ups are served in queue order, one callback each: if the
    script functions post nothing, delivering as many events as there are
    wake-ups at the head of the queue invokes their callbacks first to
    last, each with the global object as receiver and no arguments, and
    leaves the rest of the queue. *)
Theorem wakeUps_served_in_order
    (call : Call) (cbs : list FunctionObject) (q : list QPostEvent)
    (d : EnginePrivate) :
  keepsQueue call ->
  postEventList d = map wakeUp cbs ++ q ->
  Nat.iter (length cbs) (sendPostedEvent call) d
    = fold_left
        (fun e cb => call cb (plainCall d) (with_postEventList (tail (postEventList e)) e))
        cbs d /\
  postEventList (Nat.iter (length cbs) (sendPostedEvent call) d) = q.
Proof.
  intros Hcall. revert d. induction cbs as [|cb cbs IH]; intros d Hq.
  - done.
  - cbn [length]. rewrite Nat.iter_succ_r. cbn [fold_left].
    assert (Hstep : sendPostedEvent call d
              = call cb (plainCall d) (with_postEventList (tail (postEventList d)) d)).
    { unfold sendPostedEvent. rewrite Hq. reflexivity. }
    rewrite Hstep.
    set (d1 := call cb (plainCall d) (with_postEventList (tail (postEventList d)) d)).
    destruct (Hcall cb (plainCall d) (with_postEventList (tail (postEventList d)) d))
      as [Hq1 Hg1].
    fold d1 in Hq1, Hg1. cbn in Hq1, Hg1. rewrite Hq in Hq1. cbn in Hq1.
    destruct (IH d1 Hq1) as [Hrun Hleft].
    replace (plainCall d1) with (plainCall d) in Hrun
      by (unfold plainCall; by rewrite Hg1).
    by split.
Qed.

Lemma noteLast_keepsQueue : keepsQueue noteLast.
Proof. by intros cb callData e. Qed.

Lemma wakeUps_served_in_order_witness :
  m_cachedModules
    (Nat.iter 2 (sendPostedEvent noteLast)
       (with_postEventList [wakeUp f1; wakeUp f2; mkPostEvent (OtherEvent 1000) 0] fresh))
    !! "last" = Some f2.
Proof.
  destruct (wakeUps_served_in_order noteLast [f1; f2] [mkPostEvent (OtherEvent 1000) 0]
              (with_postEventList
                 [wakeUp f1; wakeUp f2; mkPostEvent (OtherEvent 1000) 0] fresh)
              noteLast_keepsQueue eq_refl) as [Hrun _].
  change (length [f1; f2]) with 2%nat in Hrun. rewrite Hrun. reflexivity.
Defined.

(** ** Native modules *)

(** X13. After [registerModules] the native modules are the four core
    modules "fs", "os", "path" and "util", each answering with the object
    allocated for it, together with whatever was registered before under
    other names. *)
Theorem registerModules_core_modules
    (fs os path util : Value) (m_coreModules : gmap string Value) (id : string) :
  let m := registerModules fs os path util m_coreModules in
  (hasNativeModule id m = true <->
     id ∈ ["fs"; "os"; "path"; "util"] \/ hasNativeModule id m_coreModules = true) /\
  nativeModule "fs" m = Some fs /\
  nativeModule "os" m = Some os /\
  nativeModule "path" m = Some path /\
  nativeModule "util" m = Some util /\
  (id ∉ ["fs"; "os"; "path"; "util"] ->
     nativeModule id m = nativeModule id m_coreModules).
Proof.
  intros m. subst m. unfold hasNativeModule, nativeModule, value, registerModules.
  split; [|repeat split; try by simplify_map_eq].
  - rewrite !contains_true. rewrite !lookup_insert.
    repeat case_decide; subst; split; intros Hx;
      try (left; set_solver); try (by eexists); try (by right).
    destruct Hx as [Hx|Hx]; [|done]. set_solver.
  - intros Hid. rewrite !lookup_insert_ne; [done|set_solver..].
Qed.

Lemma registerModules_core_modules_witness :
  hasNativeModule "path" (registerModules (VObject 11) (VObject 12) (VObject 13)
                            (VObject 14) ∅) = true /\
  nativeModule "http" (registerModules (VObject 11) (VObject 12) (VObject 13)
                         (VObject 14) ∅) = None.
Proof.
  destruct (registerModules_core_modules (VObject 11) (VObject 12) (VObject 13)
              (VObject 14) ∅ "path") as (Hhas & _).
  destruct (registerModules_core_modules (VObject 11) (VObject 12) (VObject 13)
              (VObject 14) ∅ "http") as (_ & _ & _ & _ & _ & Hother).
  split.
  - apply Hhas. left. set_solver.
  - rewrite Hother; [reflexivity|]. set_solver.
Defined.

(** ** Life cycle of a registration *)

(** X14. Destroying an [EnginePrivate] removes the entry of its engine,
    whoever registered it.  If the engine had no entry when the object was
    constructed, construction followed by destruction gives the registry
    back as it was; if it had one, that earlier entry is gone for good: the
    engine ends up unregistered and the registry is not what it was.
    Entries of other engines are never affected. *)
Theorem registration_life_cycle
    (v4 : Registry.ExecutionEngine) (this : Registry.EnginePrivatePtr)
    (reg reg' : gmap positive positive) :
  Registry.construct v4 this reg = Done reg' ->
  (Registry.get v4 reg = None -> Registry.destruct_ v4 reg' = reg) /\
  (forall old, Registry.get v4 reg = Some old ->
     Registry.get v4 (Registry.destruct_ v4 reg') = None /\
     Registry.destruct_ v4 reg' <> reg) /\
  (forall v4', v4' <> v4 ->
     Registry.get v4' (Registry.destruct_ v4 reg') = Registry.get v4' reg).
Proof.
  unfold Registry.construct, Registry.destruct_, Registry.get, value.
  intros [= <-]. split; [|split].
  - intros Hnone. by rewrite delete_insert_id.
  - intros old Hold. split; [apply lookup_delete_eq|].
    intros Heq. rewrite <- Heq in Hold. by rewrite lookup_delete_eq in Hold.
  - intros v4' Hne. by rewrite lookup_delete_ne, lookup_insert_ne.
Qed.

Lemma registration_life_cycle_witness :
  Registry.destruct_ 1%positive {[ 1%positive := 20%positive ]} = ∅ /\
  Registry.get 1%positive (Registry.destruct_ 1%positive {[ 1%positive := 20%positive ]})
    = None.
Proof.
  destruct (registration_life_cycle 1%positive 20%positive ∅
              {[ 1%positive := 20%positive ]} eq_refl) as (Hfresh & _ & _).
  destruct (registration_life_cycle 1%positive 20%positive
              {[ 1%positive := 10%positive ]}
              {[ 1%positive := 20%positive ]} eq_refl) as (_ & Hlost & _).
  split.
  - apply Hfresh. reflexivity.
  - apply (Hlost 10%positive). reflexivity.
Defined.

(** ** What the exception constructor adds *)

(** X15. Whatever object the base-class constructor built, the body of the
    exception constructor defines on it "errno", "syscall" when the
    syscall string is not empty and "path" when the path string is not
    empty, and touches no other property: every other name, and "syscall"
    or "path" when the string is empty, answers as it did on the base
    object. *)
Theorem errno_constructor_adds_only_its_fields
    (self : gmap string Value) (message : string) (errorNo : Z)
    (syscall path : string) :
  let o := defineErrnoProperties errorNo syscall path self in
  ErrnoExceptionObject message errorNo syscall path
    = defineErrnoProperties errorNo syscall path (ErrorObject message) /\
  dom o = dom self ∪ {[ "errno" ]}
            ∪ (if isEmpty syscall then ∅ else {[ "syscall" ]})
            ∪ (if isEmpty path then ∅ else {[ "path" ]}) /\
  o !! "errno" = Some (VInteger errorNo) /\
  (forall name, name ∉ ["errno"; "syscall"; "path"] -> o !! name = self !! name) /\
  (syscall = "" -> o !! "syscall" = self !! "syscall") /\
  (path = "" -> o !! "path" = self !! "path").
Proof.
  intros o. subst o. split; [reflexivity|].
  unfold defineErrnoProperties, defineDefaultProperty.
  split; [|split; [|split; [|split]]].
  - destruct (isEmpty syscall), (isEmpty path); cbn [negb];
      rewrite ?dom_insert_L; set_solver.
  - destruct (isEmpty syscall), (isEmpty path); cbn [negb]; by simplify_map_eq.
  - intros name Hname.
    assert (name <> "errno" /\ name <> "syscall" /\ name <> "path")
      as (He & Hs & Hp) by set_solver.
    destruct (isEmpty syscall), (isEmpty path); cbn [negb];
      by rewrite ?lookup_insert_ne.
  - intros ->. cbn [isEmpty negb].
    destruct (isEmpty path); cbn [negb]; by rewrite ?lookup_insert_ne.
  - intros ->. cbn [isEmpty negb].
    destruct (isEmpty syscall); cbn [negb]; by rewrite ?lookup_insert_ne.
Qed.

Lemma errno_constructor_adds_only_its_fields_witness :
  defineErrnoProperties 2 "open" ""
      {[ "message" := VString "No such file or directory"; "name" := VString "Error" ]}
    !! "name" = Some (VString "Error") /\
  defineErrnoProperties 2 "open" ""
      {[ "message" := VString "No such file or directory"; "name" := VString "Error" ]}
    !! "path" = None.
Proof.
  destruct (errno_constructor_adds_only_its_fields
              {[ "message" := VString "No such file or directory";
                 "name" := VString "Error" ]}
              "No such file or directory" 2 "open" "")
    as (_ & _ & _ & Hother & _ & Hpath).
  split.
  - rewrite (Hother "name"); [reflexivity|]. set_solver.
  - rewrite (Hpath eq_refl). reflexivity.
Defined.

(** ** Registration of the event type *)

(** X16. The type of next-tick events is registered once: after a call of
    [eventType] that got a type from Qt, every later call returns the same
    type and leaves [m_type] alone, whatever Qt would answer then; and a
    type that is already set is returned without asking. *)
Theorem eventType_registered_once (registered later m_type : Z) :
  registered <> QEvent_None ->
  eventType later (eventType registered m_type).2 = eventType registered m_type /\
  (eventType registered m_type).1 <> QEvent_None /\
  (m_type <> QEvent_None -> eventType registered m_type = (m_type, m_type)) /\
  (m_type = QEvent_None -> eventType registered m_type = (registered, registered)).
Proof.
  intros Hr. unfold eventType. cbn [fst snd].
  destruct (Z.eqb_spec m_type QEvent_None) as [->|Hm].
  - destruct (Z.eqb_spec registered QEvent_None); [done|]. by repeat split.
  - destruct (Z.eqb_spec m_type QEvent_None); [done|]. by repeat split.
Qed.

Lemma eventType_registered_once_witness :
  eventType 1001 (eventType 1000 QEvent_None).2 = (1000, 1000).
Proof.
  destruct (eventType_registered_once 1000 1001 QEvent_None) as (Hsame & _ & _ & Hfirst).
  - discriminate.
  - rewrite Hsame. apply Hfirst. reflexivity.
Defined.

(** ** What the operations leave alone *)

Lemma killTimer_other id j d :
  j <> id -> runningTimers (killTimer id d) !! j = runningTimers d !! j.
Proof.
  intros Hne. unfold killTimer. repeat case_match; try done.
  cbn. by rewrite lookup_delete_ne.
Qed.

(** X17. Whatever their arguments, the four timer operations never touch
    the module cache, the queue of posted events or the global object, and
    [nextTick] never touches the module cache, the timer tables, the host
    timers or the global object.  [setTimeout] and [setInterval] change
    nothing about identifiers other than the one the host handed out and
    leave the table of the other kind alone; [clearTimeout] and
    [clearInterval] change nothing about identifiers other than the one
    they are given and leave the table of the other kind alone. *)
Theorem operations_frame (registered : Z) (callData : list Value) (d : EnginePrivate) :
  let untouched (r : ReturnedValue * EnginePrivate) :=
    m_cachedModules r.2 = m_cachedModules d /\
    postEventList r.2 = postEventList d /\
    globalObject r.2 = globalObject d in
  let others (id : Z) (r : ReturnedValue * EnginePrivate) :=
    forall j, j <> id ->
      m_timeoutCallbacks r.2 !! j = m_timeoutCallbacks d !! j /\
      m_intervalCallbacks r.2 !! j = m_intervalCallbacks d !! j /\
      runningTimers r.2 !! j = runningTimers d !! j in
  (untouched (setTimeout registered callData d) /\
   others registered (setTimeout registered callData d) /\
   m_intervalCallbacks (setTimeout registered callData d).2 = m_intervalCallbacks d) /\
  (untouched (setInterval registered callData d) /\
   others registered (setInterval registered callData d) /\
   m_timeoutCallbacks (setInterval registered callData d).2 = m_timeoutCallbacks d) /\
  (untouched (clearTimeout callData d) /\
   others (toInt32 (arg callData 0)) (clearTimeout callData d) /\
   m_intervalCallbacks (clearTimeout callData d).2 = m_intervalCallbacks d) /\
  (untouched (clearInterval callData d) /\
   others (toInt32 (arg callData 0)) (clearInterval callData d) /\
   m_timeoutCallbacks (clearInterval callData d).2 = m_timeoutCallbacks d) /\
  (m_cachedModules (nextTick callData d).2 = m_cachedModules d /\
   globalObject (nextTick callData d).2 = globalObject d /\
   m_timeoutCallbacks (nextTick callData d).2 = m_timeoutCallbacks d /\
   m_intervalCallbacks (nextTick callData d).2 = m_intervalCallbacks d /\
   runningTimers (nextTick callData d).2 = runningTimers d).
Proof.
  intros untouched others. subst untouched others. cbn beta.
  split; [|split; [|split; [|split]]].
  - destruct (setTimeout_outcome registered callData d)
      as [[e ->]|(cb & v & rest & -> & Hn & Hr)]; [done|].
    rewrite setTimeout_started by done. cbn.
    repeat split; by rewrite ?lookup_insert_ne.
  - destruct (setInterval_outcome registered callData d)
      as [[e ->]|(cb & v & rest & -> & Hn & Hr)]; [done|].
    rewrite setInterval_started by done. cbn.
    repeat split; by rewrite ?lookup_insert_ne.
  - destruct (clearTimeout_outcome callData d) as [[e ->]|(v & rest & -> & Hn)]; [done|].
    rewrite clearTimeout_numeric by done. cbn [snd arg nth].
    destruct (contains _ _); [|done]. cbn.
    rewrite killTimer_cachedModules, killTimer_postEventList, killTimer_globalObject,
      killTimer_intervalCallbacks.
    repeat split; try done.
    + by rewrite lookup_delete_ne.
    + by apply killTimer_other.
  - destruct (clearInterval_outcome callData d) as [[e ->]|(v & rest & -> & Hn)]; [done|].
    rewrite clearInterval_numeric by done. cbn [snd arg nth].
    destruct (contains _ _); [done|]. cbn.
    rewrite killTimer_cachedModules, killTimer_postEventList, killTimer_globalObject,
      killTimer_timeoutCallbacks.
    repeat split; try done.
    + by rewrite lookup_delete_ne.
    + by apply killTimer_other.
  - destruct (nextTick_outcome callData d) as [[e ->]|(cb & rest & ->)]; [done|].
    by rewrite nextTick_posts.
Qed.

Lemma operations_frame_witness :
  m_timeoutCallbacks (setInterval 7 [VFunction f2; VInteger 50] withTimeout3).2 !! 3
    = Some f1 /\
  runningTimers (clearInterval [VInteger 9] withTimeout3).2 !! 3
    = Some (mkTimerInfo 100 PreciseTimer).
Proof.
  destruct (operations_frame 7 [VFunction f2; VInteger 50] withTimeout3)
    as (_ & (_ & Hothers & _) & _).
  destruct (operations_frame 0 [VInteger 9] withTimeout3)
    as (_ & _ & _ & (_ & Hclear & _) & _).
  split.
  - rewrite (proj1 (Hothers 3 ltac:(lia))). reflexivity.
  - change (toInt32 (arg [VInteger 9] 0)) with 9 in Hclear.
    rewrite (proj2 (proj2 (Hclear 3 ltac:(lia)))). reflexivity.
Defined.

(** ** The module cache is written once *)

(** X18. A module that was cached stays: after a successful [cacheModule]
    the identifier is reported as cached and answers with that module, a
    further [cacheModule] for the same identifier fails the assertion, and
    no later successful [cacheModule] changes the answer. *)
Theorem module_cache_written_once
    (id : string) (module module' : ModuleObject) (d d1 : EnginePrivate) :
  cacheModule id module d = Done d1 ->
  hasCachedModule id d = false /\
  hasCachedModule id d1 = true /\
  cachedModule id d1 = Some module /\
  cacheModule id module' d1 = AssertionFailed "!m_cachedModules.contains(id)" /\
  (forall id2 module2 d2, cacheModule id2 module2 d1 = Done d2 ->
     id2 <> id /\ cachedModule id d2 = Some module /\ cachedModule id2 d2 = Some module2).
Proof.
  unfold cacheModule, hasCachedModule, cachedModule, value, Q_ASSERT.
  destruct (contains id (m_cachedModules d)) eqn:Hc; cbn [negb]; [discriminate|].
  intros [= <-]. cbn [m_cachedModules with_cachedModules].
  assert (Hin : contains id (<[id := module]> (m_cachedModules d)) = true)
    by (eapply contains_Some, lookup_insert_eq).
  split; [done|]. split; [done|]. split; [apply lookup_insert_eq|].
  rewrite Hin. split; [done|].
  intros id2 module2 d2.
  destruct (contains id2 (<[id := module]> (m_cachedModules d))) eqn:Hc2;
    cbn [negb]; [discriminate|].
  intros [= <-]. cbn [m_cachedModules with_cachedModules].
  assert (Hne : id2 <> id) by (intros ->; congruence).
  split; [done|]. by rewrite lookup_insert_ne, !lookup_insert_eq.
Qed.

Lemma module_cache_written_once_witness :
  cacheModule "a.js" 6%positive (with_cachedModules {[ "a.js" := 5%positive ]} fresh)
    = AssertionFailed "!m_cachedModules.contains(id)" /\
  cachedModule "a.js" (with_cachedModules {[ "a.js" := 5%positive ]} fresh)
    = Some 5%positive.
Proof.
  destruct (module_cache_written_once "a.js" 5%positive 6%positive fresh
              (with_cachedModules {[ "a.js" := 5%positive ]} fresh) eq_refl)
    as (_ & _ & Hget & Hdup & _).
  by split.
Defined.
